(** * vumi.workers.blinkenlights.metrics: a shallow embedding

    The metrics pipeline of [vumi/workers/blinkenlights/metrics.py]:
    [TimeBucketPublisher], [MetricAggregator] and [GraphitePublisher].
    The source is Python 2; its values are dynamically typed, so the
    embedding carries a small universe of Python values, the exceptions the
    interpreter raises on them, and a state-and-exception monad in which the
    methods are written statement by statement. *)

From Stdlib Require Import ZArith List String Ascii Bool Lia DecimalString.
From Stdlib Require Import Floats.SpecFloat.
Import ListNotations.

Local Open Scope string_scope.
Local Open Scope Z_scope.

Set Warnings "-register-all".

(** ** Python values *)

Module Py.

(** Exceptions raised by the interpreter on the operations the source uses. *)
Inductive exn : Type :=
| TypeError
| ValueError
| KeyError
| AttributeError
| ZeroDivisionError
| OverflowError
| AssertionError.

Inductive outcome (A : Type) : Type :=
| Ret (a : A)
| Raise (e : exn).
Arguments Ret {A} a.
Arguments Raise {A} e.

Definition obind {A B} (o : outcome A) (k : A -> outcome B) : outcome B :=
  match o with
  | Ret a => k a
  | Raise e => Raise e
  end.

(** A Python [float] is an IEEE-754 binary64 number. *)
Definition prec : Z := 53.
Definition emax : Z := 1024.

(** Numbers: [int]/[long] (unbounded) and [float]. *)
Inductive num : Type :=
| Int (z : Z)
| Float (f : spec_float).

(** The values that reach the workers as elements of a datapoint's [values]:
    numbers, strings, tuples and (after JSON decoding) lists. *)
Inductive value : Type :=
| VNum (n : num)
| VStr (s : string)
| VTuple (xs : list value)
| VList (xs : list value).

(** [float(z)]: the nearest binary64, ties to even. *)
Definition float_of_Z (z : Z) : spec_float :=
  binary_normalize prec emax z 0 false.

Definition is_inf (f : spec_float) : bool :=
  match f with S754_infinity _ => true | _ => false end.

Definition is_fzero (f : spec_float) : bool :=
  match f with S754_zero _ => true | _ => false end.

(** Conversion of an [int] operand in mixed arithmetic; CPython raises
    [OverflowError] when the integer is too large for a float. *)
Definition to_float (n : num) : outcome spec_float :=
  match n with
  | Float f => Ret f
  | Int z => let f := float_of_Z z in
             if is_inf f then Raise OverflowError else Ret f
  end.

(** Python 2 [/]: floor division on two ints, true division as soon as one
    operand is a float. *)
Definition num_div (a b : num) : outcome num :=
  match a, b with
  | Int x, Int y =>
      if y =? 0 then Raise ZeroDivisionError else Ret (Int (x / y))
  | _, _ =>
      obind (to_float a) (fun fa =>
      obind (to_float b) (fun fb =>
      if is_fzero fb then Raise ZeroDivisionError
      else Ret (Float (SFdiv prec emax fa fb))))
  end.

Definition num_sub (a b : num) : outcome num :=
  match a, b with
  | Int x, Int y => Ret (Int (x - y))
  | _, _ =>
      obind (to_float a) (fun fa =>
      obind (to_float b) (fun fb =>
      Ret (Float (SFsub prec emax fa fb))))
  end.

Definition num_mul (a b : num) : outcome num :=
  match a, b with
  | Int x, Int y => Ret (Int (x * y))
  | _, _ =>
      obind (to_float a) (fun fa =>
      obind (to_float b) (fun fb =>
      Ret (Float (SFmul prec emax fa fb))))
  end.

(** Exact comparison of an int with a float, as CPython does it: the float
    [(-1)^s * m * 2^e] is compared with [z] over the integers. *)
Definition cmp_Z_float (z : Z) (f : spec_float) : option comparison :=
  match f with
  | S754_nan => None
  | S754_infinity s => Some (if s then Gt else Lt)
  | S754_zero _ => Some (z ?= 0)
  | S754_finite s m e =>
      let sm := if s then Z.neg m else Z.pos m in
      Some (if 0 <=? e then z ?= sm * 2 ^ e else z * 2 ^ (- e) ?= sm)
  end.

Definition num_cmp (a b : num) : option comparison :=
  match a, b with
  | Int x, Int y => Some (x ?= y)
  | Int x, Float f => cmp_Z_float x f
  | Float f, Int y => option_map CompOpp (cmp_Z_float y f)
  | Float f, Float g => SFcompare f g
  end.

Definition num_ltb (a b : num) : bool :=
  match num_cmp a b with Some Lt => true | _ => false end.

Definition num_eqb (a b : num) : bool :=
  match num_cmp a b with Some Eq => true | _ => false end.

(** [x / y] on arbitrary values: only numbers divide, anything else is a
    [TypeError] (unsupported operand types). *)
Definition div (a b : value) : outcome num :=
  match a, b with
  | VNum x, VNum y => num_div x y
  | _, _ => Raise TypeError
  end.

(** A string iterates as its one-character substrings. *)
Fixpoint chars (s : string) : list string :=
  match s with
  | EmptyString => []
  | String c r => String c EmptyString :: chars r
  end.

(** [iter(v)] for a for-loop or an unpacking. *)
Definition iter (v : value) : outcome (list value) :=
  match v with
  | VStr s => Ret (map VStr (chars s))
  | VTuple xs | VList xs => Ret xs
  | VNum _ => Raise TypeError
  end.

(** Unpacking into two targets, [a, b = v]: [ValueError] unless the iterable
    has exactly two items. *)
Definition unpack2_list {A} (xs : list A) : outcome (A * A) :=
  match xs with
  | [a; b] => Ret (a, b)
  | _ => Raise ValueError
  end.

Definition unpack2 (v : value) : outcome (value * value) :=
  obind (iter v) unpack2_list.

Definition unpack2_str (s : string) : outcome (string * string) :=
  unpack2_list (chars s).

(** [l.append(a, b)]: [list.append] takes exactly one argument, the call is
    a [TypeError] whatever the list and the arguments. *)
Definition append_two_args {A B C} (l : list A) (a : B) (b : C)
  : outcome (list A) :=
  Raise TypeError.

(** [s.update(xs)] on a set of strings kept without duplicates. *)
Fixpoint set_update (s xs : list string) : list string :=
  match xs with
  | [] => s
  | x :: r =>
      set_update (if existsb (String.eqb x) s then s else (s ++ [x])%list) r
  end.

End Py.

(** ** [hashlib.md5]

    The standard library's MD5 (RFC 1321), on byte strings; words are 32-bit
    integers kept in [Z] with the wrap-around written out. *)

Module MD5.

Definition w32 (x : Z) : Z := x mod 2 ^ 32.

Definition rotl32 (x c : Z) : Z :=
  Z.lor (w32 (Z.shiftl x c)) (Z.shiftr x (32 - c)).

Definition not32 (x : Z) : Z := Z.lxor x 0xffffffff.

Definition shifts : list Z :=
  [ 7; 12; 17; 22; 7; 12; 17; 22; 7; 12; 17; 22; 7; 12; 17; 22;
    5; 9; 14; 20; 5; 9; 14; 20; 5; 9; 14; 20; 5; 9; 14; 20;
    4; 11; 16; 23; 4; 11; 16; 23; 4; 11; 16; 23; 4; 11; 16; 23;
    6; 10; 15; 21; 6; 10; 15; 21; 6; 10; 15; 21; 6; 10; 15; 21 ].

(** [K[i] = floor(2^32 * abs(sin(i + 1)))]. *)
Definition K : list Z :=
  [ 0xd76aa478; 0xe8c7b756; 0x242070db; 0xc1bdceee;
    0xf57c0faf; 0x4787c62a; 0xa8304613; 0xfd469501;
    0x698098d8; 0x8b44f7af; 0xffff5bb1; 0x895cd7be;
    0x6b901122; 0xfd987193; 0xa679438e; 0x49b40821;
    0xf61e2562; 0xc040b340; 0x265e5a51; 0xe9b6c7aa;
    0xd62f105d; 0x02441453; 0xd8a1e681; 0xe7d3fbc8;
    0x21e1cde6; 0xc33707d6; 0xf4d50d87; 0x455a14ed;
    0xa9e3e905; 0xfcefa3f8; 0x676f02d9; 0x8d2a4c8a;
    0xfffa3942; 0x8771f681; 0x6d9d6122; 0xfde5380c;
    0xa4beea44; 0x4bdecfa9; 0xf6bb4b60; 0xbebfbc70;
    0x289b7ec6; 0xeaa127fa; 0xd4ef3085; 0x04881d05;
    0xd9d4d039; 0xe6db99e5; 0x1fa27cf8; 0xc4ac5665;
    0xf4292244; 0x432aff97; 0xab9423a7; 0xfc93a039;
    0x655b59c3; 0x8f0ccc92; 0xffeff47d; 0x85845dd1;
    0x6fa87e4f; 0xfe2ce6e0; 0xa3014314; 0x4e0811a1;
    0xf7537e82; 0xbd3af235; 0x2ad7d2bb; 0xeb86d391 ].

Definition nthZ (l : list Z) (i : Z) : Z := nth (Z.to_nat i) l 0.

(** The round function and the message-word index of step [i]. *)
Definition mix (i b c d : Z) : Z :=
  if i <? 16 then Z.lor (Z.land b c) (Z.land (not32 b) d)
  else if i <? 32 then Z.lor (Z.land d b) (Z.land (not32 d) c)
  else if i <? 48 then Z.lxor b (Z.lxor c d)
  else Z.lxor c (Z.lor b (not32 d)).

Definition word_index (i : Z) : Z :=
  if i <? 16 then i
  else if i <? 32 then (5 * i + 1) mod 16
  else if i <? 48 then (3 * i + 5) mod 16
  else (7 * i) mod 16.

Definition regs : Type := Z * Z * Z * Z.

Definition step (M : list Z) (r : regs) (i : Z) : regs :=
  let '(a, b, c, d) := r in
  let f := w32 (mix i b c d + a + nthZ K i + nthZ M (word_index i)) in
  (d, w32 (b + rotl32 f (nthZ shifts i)), b, c).

(** Little-endian bytes of a word, and back. *)
Fixpoint le_bytes (n : nat) (x : Z) : list Z :=
  match n with
  | O => []
  | S n' => x mod 256 :: le_bytes n' (x / 256)
  end.

Fixpoint le_word (bs : list Z) : Z :=
  match bs with
  | [] => 0
  | b :: r => b + 256 * le_word r
  end.

Fixpoint words (n : nat) (bs : list Z) : list Z :=
  match n with
  | O => []
  | S n' => le_word (firstn 4 bs) :: words n' (skipn 4 bs)
  end.

Definition process_block (r : regs) (block : list Z) : regs :=
  let '(a0, b0, c0, d0) := r in
  let '(a, b, c, d) :=
    fold_left (step (words 16 block)) (map Z.of_nat (seq 0 64)) r in
  (w32 (a0 + a), w32 (b0 + b), w32 (c0 + c), w32 (d0 + d)).

Fixpoint blocks (n : nat) (bs : list Z) : list (list Z) :=
  match n with
  | O => []
  | S n' => firstn 64 bs :: blocks n' (skipn 64 bs)
  end.

(** Padding: a one bit, zeros up to 56 modulo 64, the bit length on 64 bits. *)
Definition pad (msg : list Z) : list Z :=
  let len := Z.of_nat (List.length msg) in
  (msg ++ [0x80] ++ repeat 0 (Z.to_nat ((55 - len) mod 64))
       ++ le_bytes 8 (8 * len mod 2 ^ 64))%list.

Definition init : regs := (0x67452301, 0xefcdab89, 0x98badcfe, 0x10325476).

Definition digest_bytes (msg : list Z) : list Z :=
  let p := pad msg in
  let '(a, b, c, d) :=
    fold_left process_block (blocks (List.length p / 64) p) init in
  (le_bytes 4 a ++ le_bytes 4 b ++ le_bytes 4 c ++ le_bytes 4 d)%list.

Definition bytes_of_string (s : string) : list Z :=
  map (fun c => Z.of_N (N_of_ascii c)) (list_ascii_of_string s).

Definition hex_digit (d : Z) : ascii :=
  ascii_of_N (Z.to_N (if d <? 10 then 48 + d else 87 + d)).

Fixpoint hex_of_bytes (bs : list Z) : string :=
  match bs with
  | [] => EmptyString
  | b :: r => String (hex_digit (b / 16)) (String (hex_digit (b mod 16)) (hex_of_bytes r))
  end.

(** [hashlib.md5(s).hexdigest()]. *)
Definition hexdigest (s : string) : string :=
  hex_of_bytes (digest_bytes (bytes_of_string s)).

Definition is_byte (b : Z) : Prop := 0 <= b < 256.

(** The digest read as one unsigned big-endian integer. *)
Definition be_int (bs : list Z) : Z :=
  fold_left (fun acc b => 256 * acc + b) bs 0.

Definition digest_int (s : string) : Z :=
  be_int (digest_bytes (bytes_of_string s)).

End MD5.

(** ** String conversions *)

Module Fmt.

(** Value of a hexadecimal digit, if it is one. *)
Definition hex_value (c : ascii) : option Z :=
  let n := Z.of_N (N_of_ascii c) in
  if (48 <=? n) && (n <=? 57) then Some (n - 48)
  else if (97 <=? n) && (n <=? 102) then Some (n - 87)
  else if (65 <=? n) && (n <=? 70) then Some (n - 55)
  else None.

Fixpoint int16_from (acc : Z) (s : string) : Py.outcome Z :=
  match s with
  | EmptyString => Py.Ret acc
  | String c r =>
      match hex_value c with
      | Some d => int16_from (16 * acc + d) r
      | None => Py.Raise Py.ValueError
      end
  end.

(** [int(s, 16)] on an unprefixed, unsigned digit string. *)
Definition int16 (s : string) : Py.outcome Z :=
  match s with
  | EmptyString => Py.Raise Py.ValueError
  | _ => int16_from 0 s
  end.

(** ["%d" % z] for an int. *)
Definition dec (z : Z) : string := NilZero.string_of_int (Z.to_int z).

(** [int(f)]: truncation toward zero; NaN and the infinities do not convert. *)
Definition trunc (f : spec_float) : Py.outcome Z :=
  match f with
  | S754_nan => Py.Raise Py.ValueError
  | S754_infinity _ => Py.Raise Py.OverflowError
  | S754_zero _ => Py.Ret 0
  | S754_finite s m e =>
      let a := if 0 <=? e then Z.pos m * 2 ^ e else Z.pos m / 2 ^ (- e) in
      Py.Ret (if s then - a else a)
  end.

(** [int(n)]. *)
Definition int_of (n : Py.num) : Py.outcome Z :=
  match n with
  | Py.Int z => Py.Ret z
  | Py.Float f => trunc f
  end.

(** ["%d" % n]: a float argument is truncated first. *)
Definition fmt_d (n : Py.num) : Py.outcome string :=
  Py.obind (int_of n) (fun z => Py.Ret (dec z)).

(** [num / den] rounded to the nearest integer, ties to even. *)
Definition round_half_even (num den : Z) : Z :=
  let q := num / den in
  match 2 * (num mod den) ?= den with
  | Lt => q
  | Gt => q + 1
  | Eq => if Z.even q then q else q + 1
  end.

Fixpoint zeros (n : nat) : string :=
  match n with
  | O => EmptyString
  | S n' => String "0" (zeros n')
  end.

(** [n] is the magnitude scaled by [10^6]: integer part, point, six digits. *)
Definition fixed6 (neg : bool) (n : Z) : string :=
  let frac := dec (n mod 10 ^ 6) in
  ((if neg then "-" else "") ++ dec (n / 10 ^ 6) ++ "."
     ++ zeros (6 - String.length frac) ++ frac)%string.

(** ["%f" % f] with the default precision of six digits, as CPython 2.7
    prints it: the exact binary value rounded half-even to a multiple of
    [10^-6], every digit of the integer part written out. *)
Definition fmt_f_float (f : spec_float) : string :=
  match f with
  | S754_nan => "nan"
  | S754_infinity s => if s then "-inf" else "inf"
  | S754_zero s => fixed6 s 0
  | S754_finite s m e =>
      if 0 <=? e then fixed6 s (Z.pos m * 2 ^ e * 10 ^ 6)
      else fixed6 s (round_half_even (Z.pos m * 10 ^ 6) (2 ^ (- e)))
  end.

(** ["%f" % n]: an int argument is converted to a float first. *)
Definition fmt_f (n : Py.num) : Py.outcome string :=
  Py.obind (Py.to_float n) (fun f => Py.Ret (fmt_f_float f)).

End Fmt.


(** ** Statements: state and exceptions

    A method body is a function from the state it can touch to an outcome and
    the state it leaves.  A raised exception keeps the mutations made before
    it, as in Python. *)

Definition M (S A : Type) : Type := S -> Py.outcome A * S.

Definition ret {S A} (a : A) : M S A := fun s => (Py.Ret a, s).

Definition raise {S A} (e : Py.exn) : M S A := fun s => (Py.Raise e, s).

Definition bind {S A B} (m : M S A) (k : A -> M S B) : M S B :=
  fun s =>
    match m s with
    | (Py.Ret a, s') => k a s'
    | (Py.Raise e, s') => (Py.Raise e, s')
    end.

(** An expression that may raise but touches no state. *)
Definition lift {S A} (o : Py.outcome A) : M S A := fun s => (o, s).

Definition gets {S A} (f : S -> A) : M S A := fun s => (Py.Ret (f s), s).

Definition modify {S} (f : S -> S) : M S unit := fun s => (Py.Ret tt, f s).

Notation "x <- m ;; k" := (bind m (fun x => k))
  (at level 61, m at next level, right associativity).
Notation "' p <- m ;; k" := (bind m (fun x => match x with p => k end))
  (at level 61, p pattern, m at next level, right associativity).
Notation "m ;; k" := (bind m (fun _ => k))
  (at level 61, right associativity).

(** [for x in xs: body], with the loop-carried variables in [acc]. *)
Fixpoint for_fold {S A B} (xs : list A) (acc : B) (body : B -> A -> M S B)
  : M S B :=
  match xs with
  | [] => ret acc
  | x :: r => acc' <- body acc x ;; for_fold r acc' body
  end.

Definition for_each {S A} (xs : list A) (body : A -> M S unit) : M S unit :=
  for_fold xs tt (fun _ x => body x).

(** ** Dictionaries

    A dict is kept as the list of its items; iteration follows the list, an
    arbitrary order as far as the source is concerned.  Keys of the bucket
    maps are numbers and compare with Python's [==], so that [2] and [2.0]
    are one key. *)

Module Dict.

Section Ops.
Context {K V : Type} (eqb : K -> K -> bool).

Fixpoint get (d : list (K * V)) (k : K) : option V :=
  match d with
  | [] => None
  | (k', v) :: r => if eqb k' k then Some v else get r k
  end.

(** [d[k] = v]: the item is replaced in place, or added. *)
Fixpoint set (d : list (K * V)) (k : K) (v : V) : list (K * V) :=
  match d with
  | [] => [(k, v)]
  | (k', v') :: r => if eqb k' k then (k', v) :: r else (k', v') :: set r k v
  end.

(** [del d[k]]; the caller raises [KeyError] when [get] finds nothing. *)
Fixpoint del (d : list (K * V)) (k : K) : list (K * V) :=
  match d with
  | [] => []
  | (k', v') :: r => if eqb k' k then r else (k', v') :: del r k
  end.

End Ops.

End Dict.

(** Modelled from the spec: [MetricMessage] of
    [vumi.blinkenlights.message20110818], the envelope carrying one or more
    datapoints [(metric_name, aggregators, values)]: a list of datapoints,
    to which [append] adds one datapoint and [extend] every item of an
    iterable. *)
Module MetricMessage.

Definition t : Type := list Py.value.

Definition empty : t := [].

Definition append (msg : t) (datapoint : Py.value) : t :=
  (msg ++ [datapoint])%list.

Definition extend (msg : t) (datapoints : Py.value) : Py.outcome t :=
  Py.obind (Py.iter datapoints) (fun ds => Py.Ret (msg ++ ds)%list).

End MetricMessage.

(** ** TimeBucketPublisher *)

Module TimeBucketPublisher.

(** The two attributes set by [__init__]. *)
Record t : Type := {
  buckets : Z;
  bucket_size : Py.num
}.

(** What [publish_message(msg, routing_key=...)] hands to the broker. *)
Definition sent : Type := list (string * MetricMessage.t).

Definition publish_message (msg : MetricMessage.t) (routing_key : string)
  : M sent unit :=
  modify (fun out => (out ++ [(routing_key, msg)])%list).

(** [find_bucket], lines 106-108. *)
Definition find_bucket (self : t) (metric_name : string) (ts_key : Py.num)
  : Py.outcome Py.num :=
  Py.obind (Fmt.fmt_d ts_key) (fun k =>
  let md5 := MD5.hexdigest (metric_name ++ ":" ++ k) in
  Py.obind (Fmt.int16 md5) (fun h =>
  Py.num_div (Py.Int h) (Py.Int (buckets self)))).

(** First loop of [publish_metric], lines 112-117.  [timestamp_buckets] is
    never assigned to, [ts_bucket] is what [get] returned. *)
Definition group_value (self : t)
    (timestamp_buckets : list (Py.num * list Py.value)) (item : Py.value)
  : M sent (list (Py.num * list Py.value)) :=
  '(timestamp, value) <- lift (Py.unpack2 item) ;;
  ts_key <- lift (Py.div timestamp (Py.VNum (bucket_size self))) ;;
  match Dict.get Py.num_eqb timestamp_buckets ts_key with
  | None =>
      (* ts_bucket[ts_key] = [] with ts_bucket None *)
      raise Py.TypeError
  | Some ts_bucket =>
      (* ts_bucket.append(...) on the list held by the dict *)
      ret (Dict.set Py.num_eqb timestamp_buckets ts_key
             (ts_bucket ++ [Py.VTuple [timestamp; value]])%list)
  end.

(** Body of the second loop, lines 120-124. *)
Definition publish_group (self : t) (metric_name : string)
    (aggregates : list string) (group : Py.num * list Py.value)
  : M sent unit :=
  let '(ts_key, ts_bucket) := group in
  bucket <- lift (find_bucket self metric_name ts_key) ;;
  bucket_str <- lift (Fmt.fmt_d bucket) ;;
  let routing_key := "bucket." ++ bucket_str in
  msg <- lift (MetricMessage.extend MetricMessage.empty
                 (Py.VTuple [Py.VStr metric_name;
                             Py.VList (map Py.VStr aggregates);
                             Py.VList ts_bucket])) ;;
  publish_message msg routing_key.

(** [publish_metric], lines 110-124. *)
Definition publish_metric (self : t) (metric_name : string)
    (aggregates : list string) (values : list Py.value) : M sent unit :=
  timestamp_buckets <- for_fold values [] (group_value self) ;;
  for_each timestamp_buckets (publish_group self metric_name aggregates).

End TimeBucketPublisher.

(** ** twisted.python.log

    Of the three functions the module calls on [log], the library provides
    [msg] and [err]; it has no [warn], and looking that name up on the
    module raises. *)

Module TwistedLog.

Definition provided : list string := ["msg"; "err"].

(** [log.<name>]. *)
Definition getattr (name : string) : Py.outcome unit :=
  if existsb (String.eqb name) provided then Py.Ret tt
  else Py.Raise Py.AttributeError.

End TwistedLog.

(** ** MetricAggregator *)

Module MetricAggregator.

(** [{ metric_name -> (aggregate_set, values) }], the comment of line 180. *)
Definition metrics : Type := list (string * (list string * list Py.value)).

(** The one datapoint of the message built by
    [AggregatedMetricPublisher.publish_aggregate(metric_name, timestamp,
    value)], lines 51-55. *)
Record aggregate : Type := {
  agg_metric : Py.value;
  agg_timestamp : Py.num;
  agg_value : Py.value
}.

Inductive log_entry : Type :=
| Log_msg (text : string)
| Log_old_data (bucket : metrics).

(** What a [LoopingCall] was built on: a method of the class body, or an
    attribute found on the base class [Worker]. *)
Inductive callee : Type :=
| Own (name : string)
| Base (name : string).

Record looping_call : Type := {
  call : callee;
  running : bool;
  interval : option Py.num
}.

(** The worker with what it acts on: its attributes, the aggregates handed to
    its publisher, the log, and the wall clock in whole seconds,
    [int(time.time())]. *)
Record t : Type := {
  bucket_size : Py.num;
  buckets : list (Py.num * metrics);
  consumer : option Z;
  _task : option looping_call;
  published : list aggregate;
  log : list log_entry;
  clock : Z
}.

Definition with_bucket_size (x : Py.num) (w : t) : t :=
  {| bucket_size := x; buckets := buckets w; consumer := consumer w;
     _task := _task w; published := published w; log := log w;
     clock := clock w |}.

Definition with_buckets (x : list (Py.num * metrics)) (w : t) : t :=
  {| bucket_size := bucket_size w; buckets := x; consumer := consumer w;
     _task := _task w; published := published w; log := log w;
     clock := clock w |}.

Definition with_consumer (x : option Z) (w : t) : t :=
  {| bucket_size := bucket_size w; buckets := buckets w; consumer := x;
     _task := _task w; published := published w; log := log w;
     clock := clock w |}.

Definition with_task (x : option looping_call) (w : t) : t :=
  {| bucket_size := bucket_size w; buckets := buckets w;
     consumer := consumer w; _task := x; published := published w;
     log := log w; clock := clock w |}.

Definition with_published (x : list aggregate) (w : t) : t :=
  {| bucket_size := bucket_size w; buckets := buckets w;
     consumer := consumer w; _task := _task w; published := x; log := log w;
     clock := clock w |}.

Definition with_log (x : list log_entry) (w : t) : t :=
  {| bucket_size := bucket_size w; buckets := buckets w;
     consumer := consumer w; _task := _task w; published := published w;
     log := x; clock := clock w |}.

Definition with_clock (x : Z) (w : t) : t :=
  {| bucket_size := bucket_size w; buckets := buckets w;
     consumer := consumer w; _task := _task w; published := published w;
     log := log w; clock := x |}.

(** A message recorded by a function of [twisted.python.log]. *)
Definition write_log (e : log_entry) : M t unit :=
  modify (fun w => with_log (log w ++ [e])%list w).

Definition publish_aggregate (metric_name : Py.value) (timestamp : Py.num)
    (value : Py.value) : M t unit :=
  modify (fun w =>
    with_published
      (published w ++ [{| agg_metric := metric_name;
                          agg_timestamp := timestamp;
                          agg_value := value |}])%list w).

(** [self.buckets[ts_key]] and [del self.buckets[ts_key]]. *)
Definition bucket_item (ts_key : Py.num) : M t metrics :=
  bs <- gets buckets ;;
  match Dict.get Py.num_eqb bs ts_key with
  | Some m => ret m
  | None => raise Py.KeyError
  end.

Definition del_bucket (ts_key : Py.num) : M t unit :=
  bs <- gets buckets ;;
  match Dict.get Py.num_eqb bs ts_key with
  | Some _ => modify (with_buckets (Dict.del Py.num_eqb bs ts_key))
  | None => raise Py.KeyError
  end.

Section Collaborators.

(** [Aggregator.from_name(agg_name)(values)] of [vumi.blinkenlights.metrics]
    and the attributes the base class [vumi.service.Worker] provides are not
    part of this module. *)
Variable from_name : string -> Py.value -> Py.outcome Py.value.
Variable worker_attrs : list string.

(** Lines 205-209: the loop runs over the dict itself, hence over its keys,
    and each key, a string, is unpacked; what is unpacked from a string are
    strings again. *)
Definition collect_metric (aggregates : list Py.value) (key : string)
  : M t (list Py.value) :=
  '(metric_name, entry) <- lift (Py.unpack2_str key) ;;
  '(agg_set, values) <- lift (Py.unpack2_str entry) ;;
  for_fold (Py.chars agg_set) aggregates (fun aggregates agg_name =>
    let agg_metric := metric_name ++ "." ++ agg_name in
    agg_value <- lift (from_name agg_name (Py.VStr values)) ;;
    lift (Py.append_two_args aggregates agg_metric agg_value)).

(** Lines 211-213. *)
Definition publish_collected (prev_ts : Py.num) (item : Py.value)
  : M t unit :=
  '(agg_metric, agg_value) <- lift (Py.unpack2 item) ;;
  publish_aggregate agg_metric prev_ts agg_value.

(** Body of the loop over [self.buckets.keys()], lines 199-214.  In the
    call of line 200 the callee [log.warn] is looked up before the argument
    is built. *)
Definition check_bucket (prev_ts_key prev_ts : Py.num) (ts_key : Py.num)
  : M t unit :=
  if Py.num_ltb ts_key prev_ts_key then
    lift (TwistedLog.getattr "warn") ;;
    old <- bucket_item ts_key ;;
    write_log (Log_old_data old) ;;
    del_bucket ts_key
  else if Py.num_eqb ts_key prev_ts_key then
    bucket <- bucket_item ts_key ;;
    aggregates <- for_fold (map fst bucket) [] collect_metric ;;
    for_each aggregates (publish_collected prev_ts) ;;
    del_bucket ts_key
  else ret tt.

(** [check_buckets], lines 193-214. *)
Definition check_buckets : M t unit :=
  now <- gets clock ;;
  size <- gets bucket_size ;;
  key <- lift (Py.num_div (Py.Int now) size) ;;
  prev_ts_key <- lift (Py.num_sub key (Py.Int 1)) ;;
  prev_ts <- lift (Py.num_mul prev_ts_key size) ;;
  keys <- gets (fun w => map fst (buckets w)) ;;
  for_each keys (check_bucket prev_ts_key prev_ts).

(** [consume_metric], lines 216-228.  The set and the list of an entry are
    updated in place in the source; here the entry is written back. *)
Definition consume_metric (metric_name : string) (aggregates : list string)
    (values : list Py.value) : M t unit :=
  match values with
  | [] => ret tt
  | first :: _ =>
      size <- gets bucket_size ;;
      ts_key <- lift (Py.div first (Py.VNum size)) ;;
      bs <- gets buckets ;;
      let metrics :=
        match Dict.get Py.num_eqb bs ts_key with
        | Some m => m
        | None => []
        end in
      let '(existing_aggregates, existing_values) :=
        match Dict.get String.eqb metrics metric_name with
        | Some metric => metric
        | None => ([], [])
        end in
      let metric := (Py.set_update existing_aggregates aggregates,
                     (existing_values ++ values)%list) in
      modify (with_buckets
                (Dict.set Py.num_eqb bs ts_key
                   (Dict.set String.eqb metrics metric_name metric)))
  end.

(** Names bound in the class body. *)
Definition methods : list string :=
  ["startWorker"; "check_buckets"; "consume_metric"; "stopWorker"].

(** [self.<name>] for a callable: the class body first, then the base. *)
Definition getattr (name : string) : Py.outcome callee :=
  if existsb (String.eqb name) methods then Py.Ret (Own name)
  else if existsb (String.eqb name) worker_attrs then Py.Ret (Base name)
  else Py.Raise Py.AttributeError.

(** [startWorker], lines 173-191, on the configuration values [bucket] and
    [bucket_size] (the first log message is kept without the configuration
    it prints).  [LoopingCall.start] is recorded as the running task with
    its interval; the calls it makes are the ticks of [step] below. *)
Definition startWorker (cfg_bucket cfg_bucket_size : Py.num) : M t unit :=
  write_log (Log_msg "Starting a MetricAggregator") ;;
  bucket <- lift (Fmt.int_of cfg_bucket) ;;
  write_log (Log_msg ("MetricAggregator bucket " ++ Fmt.dec bucket)) ;;
  size <- lift (Py.to_float cfg_bucket_size) ;;
  modify (with_bucket_size (Py.Float size)) ;;
  size_str <- lift (Fmt.fmt_d (Py.Float size)) ;;
  write_log (Log_msg ("Bucket size is " ++ size_str ++ " seconds")) ;;
  modify (with_buckets []) ;;
  modify (with_consumer (Some bucket)) ;;
  f <- lift (getattr "_check_buckets") ;;
  modify (with_task (Some {| call := f; running := false; interval := None |})) ;;
  size <- gets bucket_size ;;
  modify (with_task (Some {| call := f; running := true;
                             interval := Some size |})).

(** [stopWorker], lines 230-232. *)
Definition stopWorker : M t unit :=
  task <- gets _task ;;
  match task with
  | None => raise Py.AttributeError
  | Some lc =>
      (if running lc
       then modify (with_task (Some {| call := call lc; running := false;
                                       interval := interval lc |}))
       else raise Py.AssertionError) ;;
      check_buckets
  end.

(** *** One process lifetime

    The reactor interleaves message deliveries, ticks of the looping call
    and the stop signal while the wall clock moves forward; an exception of
    a handler is logged by the reactor and leaves the worker as the handler
    left it. *)
Inductive event : Type :=
| Deliver (metric_name : string) (aggregates : list string)
          (values : list Py.value)
| Tick
| Stop
| Advance (seconds : N).

Definition step (w : t) (e : event) : t :=
  match e with
  | Deliver metric_name aggregates values =>
      snd (consume_metric metric_name aggregates values w)
  | Tick => snd (check_buckets w)
  | Stop => snd (stopWorker w)
  | Advance seconds => with_clock (clock w + Z.of_N seconds) w
  end.

Definition run (w : t) (events : list event) : t := fold_left step events w.

End Collaborators.

(** The worker as [startWorker] leaves its attributes at line 182. *)
Definition fresh (size : Py.num) (now : Z) : t :=
  {| bucket_size := size; buckets := []; consumer := None; _task := None;
     published := []; log := []; clock := now |}.

(** The key under which an aggregate is emitted: its name
    [metric_name.agg_tag] and the timestamp of its bucket. *)
Definition emission_key (a : aggregate) : Py.value * Py.num :=
  (agg_metric a, agg_timestamp a).

End MetricAggregator.

(** ** GraphitePublisher *)

Module GraphitePublisher.

(** What [publish_raw(body, routing_key=...)] hands to the broker. *)
Definition sent : Type := list (string * string).

Definition publish_raw (body routing_key : string) : M sent unit :=
  modify (fun out => (out ++ [(routing_key, body)])%list).

Section Locale.

(** [time.timezone]: the offset of the local (non-DST) timezone in seconds
    west of UTC. *)
Variable timezone : Z.

(** [_local_timestamp], lines 244-248. *)
Definition _local_timestamp (timestamp : Py.num) : Py.outcome Py.num :=
  Py.num_sub timestamp (Py.Int timezone).

(** [publish_metric], lines 250-252. *)
Definition publish_metric (metric : string) (value timestamp : Py.num)
  : M sent unit :=
  timestamp <- lift (_local_timestamp timestamp) ;;
  value_str <- lift (Fmt.fmt_f value) ;;
  timestamp_str <- lift (Fmt.fmt_d timestamp) ;;
  publish_raw (value_str ++ " " ++ timestamp_str) metric.

End Locale.

(** [time.timezone] of a deployment whose local time is UTC plus [hours]:
    west of UTC counts positive, so east is negative. *)
Definition timezone_of_utc_plus (hours : Z) : Z := - (hours * 3600).

End GraphitePublisher.

(** ** Statements checked against the code *)

(** A datapoint dropped with a warning: one more log entry, the buckets and
    the emitted aggregates as they were. *)
Definition dropped_with_warning (before after : MetricAggregator.t) : Prop :=
  MetricAggregator.buckets after = MetricAggregator.buckets before
  /\ MetricAggregator.published after = MetricAggregator.published before
  /\ exists entry,
       MetricAggregator.log after
       = (MetricAggregator.log before ++ [entry])%list.

(** [m] leaves the component [proj] of the state as it found it, whatever
    its outcome. *)
Definition keeps {S A X} (proj : S -> X) (m : M S A) : Prop :=
  forall s, proj (snd (m s)) = proj s.

(** ** Scenarios *)

Module Scenario.

Import MetricAggregator.

Definition five : Py.num := Py.Float (Py.float_of_Z 5).

Definition point (timestamp value : Z) : Py.value :=
  Py.VTuple [Py.VNum (Py.Int timestamp); Py.VNum (Py.Float (Py.float_of_Z value))].

(** Bucket 2 at [bucket_size = 5] holding
    [("m", {"sum", "count"}, [(10, 1.0), (11, 2.0), (12, 3.0)])]. *)
Definition bucket_m : metrics :=
  [("m", (["sum"; "count"], [point 10 1; point 11 2; point 12 3]))].

(** Bucket 3, still open when [now_key = 3]. *)
Definition bucket_n : metrics :=
  [("n", (["max"], [point 16 4]))].

Definition task : looping_call :=
  {| call := Own "check_buckets"; running := true; interval := Some five |}.

(** A worker holding buckets 2 and 3, with its tick running. *)
Definition holding (now : Z) : t :=
  {| bucket_size := five;
     buckets := [(Py.Int 2, bucket_m); (Py.Int 3, bucket_n)];
     consumer := Some 0;
     _task := Some task;
     published := [];
     log := [];
     clock := now |}.

End Scenario.

(** ** GraphiteMetricsCollector *)

Module GraphiteMetricsCollector.

Section Locale.

Variable timezone : Z.

(** [consume_metrics], lines 266-269: each item of [values] is unpacked and
    handed to [GraphitePublisher.publish_metric], value first.  A timestamp
    that is no number fails in the subtraction of line 248, a value that is
    no number in the formatting of line 252, after that subtraction. *)
Definition consume_metrics (metric_name : string) (values : list Py.value)
  : M GraphitePublisher.sent unit :=
  for_each values (fun item =>
    '(timestamp, value) <- lift (Py.unpack2 item) ;;
    match timestamp with
    | Py.VNum t =>
        match value with
        | Py.VNum v => GraphitePublisher.publish_metric timezone metric_name v t
        | _ =>
            lift (GraphitePublisher._local_timestamp timezone t) ;;
            raise Py.TypeError
        end
    | _ => raise Py.TypeError
    end).

End Locale.

(** The (timestamp, value) pair of an aggregate, and the line it becomes. *)
Definition pair_of (p : Z * spec_float) : Py.value :=
  Py.VTuple [Py.VNum (Py.Int (fst p)); Py.VNum (Py.Float (snd p))].

Definition line_of (timezone : Z) (metric_name : string)
    (p : Z * spec_float) : string * string :=
  (metric_name,
   (Fmt.fmt_f_float (snd p) ++ " " ++ Fmt.dec (fst p - timezone))%string).

End GraphiteMetricsCollector.

(** ** Vocabulary for the bucket map *)

Module Buckets.

Import MetricAggregator.

(** A float NaN is the one number that is not [==] to itself. *)
Definition is_nan (k : Py.num) : bool :=
  match k with
  | Py.Float S754_nan => true
  | _ => false
  end.

(** No key is [==] to a later one: the list is the items of a dict. *)
Fixpoint distinct (keys : list Py.num) : bool :=
  match keys with
  | [] => true
  | k :: r => forallb (fun k' => negb (Py.num_eqb k k')) r && distinct r
  end.

(** The two numbers computed by lines 196-197. *)
Definition previous (w : t) : Py.outcome (Py.num * Py.num) :=
  Py.obind (Py.num_div (Py.Int (clock w)) (bucket_size w)) (fun key =>
  Py.obind (Py.num_sub key (Py.Int 1)) (fun prev_ts_key =>
  Py.obind (Py.num_mul prev_ts_key (bucket_size w)) (fun prev_ts =>
  Py.Ret (prev_ts_key, prev_ts)))).

(** How the loop of line 198 sorts a bucket against [prev_ts_key]. *)
Definition stale (prev_ts_key : Py.num) (item : Py.num * metrics) : bool :=
  Py.num_ltb (fst item) prev_ts_key.

Definition due (prev_ts_key : Py.num) (item : Py.num * metrics) : bool :=
  negb (Py.num_ltb (fst item) prev_ts_key)
  && Py.num_eqb (fst item) prev_ts_key.

Definition open (prev_ts_key : Py.num) (item : Py.num * metrics) : bool :=
  negb (Py.num_ltb (fst item) prev_ts_key)
  && negb (Py.num_eqb (fst item) prev_ts_key).

Definition holds_metrics (item : Py.num * metrics) : bool :=
  match snd item with
  | [] => false
  | _ => true
  end.

(** The entry of [(ts_key, metric_name)], empty when there is none. *)
Definition entry (w : t) (ts_key : Py.num) (metric_name : string)
  : list string * list Py.value :=
  match Dict.get Py.num_eqb (buckets w) ts_key with
  | Some m =>
      match Dict.get String.eqb m metric_name with
      | Some e => e
      | None => ([], [])
      end
  | None => ([], [])
  end.

(** The metrics of a bucket, empty when the bucket is not resident. *)
Definition bucket (w : t) (ts_key : Py.num) : metrics :=
  match Dict.get Py.num_eqb (buckets w) ts_key with
  | Some m => m
  | None => []
  end.

(** A bucket at which a pass stops: a stale one, or one due for closing
    that holds a metric. *)
Definition blocking (prev_ts_key : Py.num) (item : Py.num * metrics) : bool :=
  stale prev_ts_key item || (due prev_ts_key item && holds_metrics item).

(** The exception of the pass at such a bucket. *)
Definition blocked_by (prev_ts_key : Py.num) (item : Py.num * metrics)
  : Py.exn :=
  if stale prev_ts_key item then Py.AttributeError else Py.ValueError.

(** A delivery whose [values] is empty or starts with something that is not
    a bare number: the datapoints the consumers document. *)
Definition documented (e : event) : bool :=
  match e with
  | Deliver _ _ (Py.VNum _ :: _) => false
  | _ => true
  end.

End Buckets.

(** [m] moves every state to one related to it by [R], whatever its
    outcome. *)
Definition within {S A} (R : S -> S -> Prop) (m : M S A) : Prop :=
  forall s, R s (snd (m s)).

(** What a pass may do to a worker: drop buckets and add log entries. *)
Definition shrinks (w w' : MetricAggregator.t) : Prop :=
  incl (MetricAggregator.buckets w') (MetricAggregator.buckets w)
  /\ (exists entries,
         MetricAggregator.log w' = (MetricAggregator.log w ++ entries)%list)
  /\ MetricAggregator.bucket_size w' = MetricAggregator.bucket_size w
  /\ MetricAggregator.consumer w' = MetricAggregator.consumer w
  /\ MetricAggregator._task w' = MetricAggregator._task w
  /\ MetricAggregator.published w' = MetricAggregator.published w
  /\ MetricAggregator.clock w' = MetricAggregator.clock w.

(** ** Sample workers *)

Module Sample.

Import MetricAggregator.

(** Bucket 6 open, an empty bucket 5 due, bucket 7 open, at a clock of 30
    seconds and a bucket size of 5. *)
Definition tidy : t :=
  {| bucket_size := Scenario.five;
     buckets := [(Py.Int 6, Scenario.bucket_n); (Py.Int 5, []);
                 (Py.Int 7, Scenario.bucket_m)];
     consumer := Some 0;
     _task := Some Scenario.task;
     published := [];
     log := [];
     clock := 30 |}.

(** Bucket 6 open, bucket 5 due with a metric, bucket 2 behind. *)
Definition loaded : t :=
  {| bucket_size := Scenario.five;
     buckets := [(Py.Int 6, Scenario.bucket_n); (Py.Int 5, Scenario.bucket_n);
                 (Py.Int 2, Scenario.bucket_m)];
     consumer := Some 0;
     _task := Some Scenario.task;
     published := [];
     log := [];
     clock := 30 |}.

(** Values sent as bare numbers, which line 219 can divide. *)
Definition bare : list Py.value := [Py.VNum (Py.Int 10); Py.VNum (Py.Int 11)].

Definition trace : list event :=
  [Deliver "m" ["sum"] [Scenario.point 10 1; Scenario.point 11 2];
   Advance 5; Tick; Deliver "n" [] []; Stop; Advance 7; Tick].

End Sample.
(** * Properties *)

(** ** Reference vectors for the library models *)

Example md5_empty : MD5.hexdigest "" = "d41d8cd98f00b204e9800998ecf8427e".
Proof. vm_compute. reflexivity. Qed.

Example md5_abc : MD5.hexdigest "abc" = "900150983cd24fb0d6963f7d28e17f72".
Proof. vm_compute. reflexivity. Qed.

Example md5_two_blocks :
  MD5.hexdigest "aaaaaaaaaaaaaaaaaaaaaaaaaaaaaaaaaaaaaaaaaaaaaaaaaaaaaaaa"
  = "3b0c8ac703f828b04c6c197006d17218".
Proof. vm_compute. reflexivity. Qed.

Example dec_examples : Fmt.dec 17 = "17" /\ Fmt.dec 0 = "0" /\ Fmt.dec (-5) = "-5".
Proof. vm_compute. repeat split. Qed.

Example fmt_f_examples :
  let q a b := SFdiv Py.prec Py.emax (Py.float_of_Z a) (Py.float_of_Z b) in
  Fmt.fmt_f_float (q 42 1) = "42.000000"
  /\ Fmt.fmt_f_float (q 1 3) = "0.333333"
  /\ Fmt.fmt_f_float (q (-1) 8) = "-0.125000"
  /\ Fmt.fmt_f_float (q 25 10000000) = "0.000003"
  /\ Fmt.fmt_f_float (q (10 ^ 50) 1)
     = "100000000000000007629769841091887003294964970946560.000000".
Proof. vm_compute. repeat split. Qed.

(** Python 2 division: floor on ints, true division with a float; [==] and
    [<] across the two number types. *)
Example num_examples :
  Py.num_div (Py.Int (-7)) (Py.Int 2) = Py.Ret (Py.Int (-4))
  /\ Py.num_div (Py.Int 7) (Py.Int 0) = Py.Raise Py.ZeroDivisionError
  /\ Py.num_div (Py.Int 15) Scenario.five = Py.Ret (Py.Float (Py.float_of_Z 3))
  /\ Py.num_eqb (Py.Int 2) (Py.Float (Py.float_of_Z 2)) = true
  /\ Py.obind (Py.num_div (Py.Int 17) Scenario.five)
        (fun q => Py.Ret (Py.num_ltb (Py.Int 3) q, Py.num_ltb q (Py.Int 4)))
      = Py.Ret (true, true).
Proof. vm_compute. repeat split. Qed.

(** Unpacking a metric name as line 205 does. *)
Example unpack_name_examples :
  Py.unpack2_str "m" = Py.Raise Py.ValueError
  /\ Py.unpack2_str "ab" = Py.Ret ("a", "b")
  /\ Py.unpack2_str "vumi.random.count" = Py.Raise Py.ValueError.
Proof. vm_compute. repeat split. Qed.

(** ** The hash of [find_bucket] *)

Section Hex.

Lemma hex_value_digit (d : Z) :
  0 <= d < 16 -> Fmt.hex_value (MD5.hex_digit d) = Some d.
Proof.
  intros H.
  assert (d = 0 \/ d = 1 \/ d = 2 \/ d = 3 \/ d = 4 \/ d = 5 \/ d = 6
          \/ d = 7 \/ d = 8 \/ d = 9 \/ d = 10 \/ d = 11 \/ d = 12
          \/ d = 13 \/ d = 14 \/ d = 15) as E by lia.
  repeat (destruct E as [-> | E]; [reflexivity |]).
  subst d. reflexivity.
Qed.

Lemma int16_from_hex (bs : list Z) :
  Forall MD5.is_byte bs ->
  forall acc,
    Fmt.int16_from acc (MD5.hex_of_bytes bs)
    = Py.Ret (fold_left (fun acc b => 256 * acc + b) bs acc).
Proof.
  induction 1 as [| b r Hb _ IH]; intros acc; [reflexivity |].
  unfold MD5.is_byte in Hb. cbn [MD5.hex_of_bytes Fmt.int16_from fold_left].
  rewrite hex_value_digit by (split; [apply Z.div_pos | apply Z.div_lt_upper_bound]; lia).
  rewrite hex_value_digit by (apply Z.mod_pos_bound; lia).
  rewrite IH. do 2 f_equal.
  pose proof (Z.div_mod b 16). lia.
Qed.

Lemma le_bytes_are_bytes (n : nat) (x : Z) : Forall MD5.is_byte (MD5.le_bytes n x).
Proof.
  revert x. induction n as [| n IH]; intros x; cbn [MD5.le_bytes]; constructor.
  - apply Z.mod_pos_bound. lia.
  - apply IH.
Qed.

Lemma digest_bytes_shape (msg : list Z) :
  exists b r, MD5.digest_bytes msg = b :: r /\ Forall MD5.is_byte (b :: r).
Proof.
  unfold MD5.digest_bytes.
  destruct (fold_left MD5.process_block _ MD5.init) as [[[a b] c] d].
  exists (a mod 256), (MD5.le_bytes 3 (a / 256) ++ MD5.le_bytes 4 b
                       ++ MD5.le_bytes 4 c ++ MD5.le_bytes 4 d)%list.
  split; [reflexivity |].
  change (a mod 256 :: (MD5.le_bytes 3 (a / 256) ++ MD5.le_bytes 4 b
                       ++ MD5.le_bytes 4 c ++ MD5.le_bytes 4 d))%list
    with (MD5.le_bytes 4 a ++ MD5.le_bytes 4 b
          ++ MD5.le_bytes 4 c ++ MD5.le_bytes 4 d)%list.
  repeat (apply Forall_app; split); apply le_bytes_are_bytes.
Qed.

(** [int(md5.hexdigest(), 16)] never fails and is the digest as a number. *)
Lemma int16_hexdigest (s : string) :
  Fmt.int16 (MD5.hexdigest s) = Py.Ret (MD5.digest_int s).
Proof.
  unfold MD5.hexdigest, MD5.digest_int, MD5.be_int.
  destruct (digest_bytes_shape (MD5.bytes_of_string s)) as (b & r & -> & Hb).
  rewrite <- (int16_from_hex (b :: r) Hb 0). reflexivity.
Qed.

End Hex.

(** [find_bucket] on an integer key: the quotient of the digest by the
    number of buckets. *)
Lemma find_bucket_quotient (self : TimeBucketPublisher.t)
    (metric_name : string) (ts_key : Z) :
  TimeBucketPublisher.buckets self <> 0 ->
  TimeBucketPublisher.find_bucket self metric_name (Py.Int ts_key)
  = Py.Ret (Py.Int (MD5.digest_int (metric_name ++ ":" ++ Fmt.dec ts_key)
                    / TimeBucketPublisher.buckets self)).
Proof.
  intros HB. unfold TimeBucketPublisher.find_bucket.
  cbn [Fmt.fmt_d Fmt.int_of Py.obind]. rewrite int16_hexdigest.
  cbn [Py.obind Py.num_div].
  destruct (Z.eqb_spec (TimeBucketPublisher.buckets self) 0); [contradiction | reflexivity].
Qed.

(** C1: [find_bucket] divides the digest by the bucket count where the claim
    takes the remainder.  For "foo.bar", key 17 and four buckets the code
    returns the quotient, a 126-bit number, where the remainder is 2; with
    one bucket it returns the digest itself, not 0. *)
Theorem find_bucket_returns_quotient :
  TimeBucketPublisher.find_bucket
    {| TimeBucketPublisher.buckets := 4;
       TimeBucketPublisher.bucket_size := Py.Int 5 |} "foo.bar" (Py.Int 17)
  = Py.Ret (Py.Int 38335240294994753956845301145048763321)
  /\ MD5.digest_int "foo.bar:17" mod 4 = 2
  /\ TimeBucketPublisher.find_bucket
       {| TimeBucketPublisher.buckets := 1;
          TimeBucketPublisher.bucket_size := Py.Int 5 |} "foo.bar" (Py.Int 17)
     = Py.Ret (Py.Int 153340961179979015827381204580195053286).
Proof. vm_compute. repeat split. Qed.

(** ** TimeBucketPublisher.publish_metric *)

(** The first datapoint value already stops [publish_metric]: the lookup in
    the empty [timestamp_buckets] yields [None], and the item assignment on
    it raises. *)
Lemma group_value_first (self : TimeBucketPublisher.t) (item : Py.value)
    (out : TimeBucketPublisher.sent) :
  exists e, TimeBucketPublisher.group_value self [] item out = (Py.Raise e, out).
Proof.
  unfold TimeBucketPublisher.group_value, bind, lift.
  destruct (Py.unpack2 item) as [[timestamp value] | e]; [| eauto].
  destruct (Py.div timestamp _) as [ts_key | e]; [| eauto].
  exists Py.TypeError. reflexivity.
Qed.

(** C2: [publish_metric] publishes nothing for a non-empty [values]: it
    raises on the first value and leaves the broker untouched; on the
    datapoint of the routing scenario the exception is the [TypeError] of
    line 116. *)
Theorem publish_metric_raises_on_first_value :
  (forall self metric_name aggregates first rest out,
      exists e,
        TimeBucketPublisher.publish_metric self metric_name aggregates
          (first :: rest) out = (Py.Raise e, out))
  /\ TimeBucketPublisher.publish_metric
       {| TimeBucketPublisher.buckets := 4;
          TimeBucketPublisher.bucket_size := Py.Int 5 |}
       "vumi.random.count" ["sum"]
       [Py.VTuple [Py.VNum (Py.Int 100); Py.VNum (Py.Float (Py.float_of_Z 1))];
        Py.VTuple [Py.VNum (Py.Int 102); Py.VNum (Py.Float (Py.float_of_Z 1))];
        Py.VTuple [Py.VNum (Py.Int 105); Py.VNum (Py.Float (Py.float_of_Z 1))]]
       []
     = (Py.Raise Py.TypeError, []).
Proof.
  split; [| vm_compute; reflexivity].
  intros self metric_name aggregates first rest out.
  destruct (group_value_first self first out) as [e He].
  exists e. unfold TimeBucketPublisher.publish_metric, bind.
  cbn [for_fold]. unfold bind at 1. rewrite He. reflexivity.
Qed.

(** ** MetricAggregator.consume_metric *)

(** C3: [consume_metric] divides the first element of [values] itself, a
    (timestamp, value) pair, by [bucket_size]: a [TypeError], for a tuple as
    for the list a decoded message carries, and no bucket entry is located,
    created or extended. *)
Theorem consume_metric_divides_the_pair :
  forall (w : MetricAggregator.t) (metric_name : string)
         (aggregates : list string) (pair rest : list Py.value),
    MetricAggregator.consume_metric metric_name aggregates
      (Py.VTuple pair :: rest) w = (Py.Raise Py.TypeError, w)
    /\ MetricAggregator.consume_metric metric_name aggregates
         (Py.VList pair :: rest) w = (Py.Raise Py.TypeError, w).
Proof. intros. split; reflexivity. Qed.

(** C10: with an empty [values], [consume_metric] returns at once; the
    worker, its buckets included, is as before. *)
Theorem consume_metric_empty_values :
  forall (w : MetricAggregator.t) (metric_name : string)
         (aggregates : list string),
    MetricAggregator.consume_metric metric_name aggregates [] w = (Py.Ret tt, w).
Proof. reflexivity. Qed.

(** ** What a statement leaves untouched *)

Section Keeps.

Context {S X : Type} (proj : S -> X).

Lemma keeps_ret {A} (a : A) : keeps proj (ret a).
Proof. intros s. reflexivity. Qed.

Lemma keeps_raise {A} (e : Py.exn) : keeps proj (@raise S A e).
Proof. intros s. reflexivity. Qed.

Lemma keeps_lift {A} (o : Py.outcome A) : keeps proj (lift o).
Proof. intros s. reflexivity. Qed.

Lemma keeps_gets {A} (f : S -> A) : keeps proj (gets f).
Proof. intros s. reflexivity. Qed.

Lemma keeps_modify (f : S -> S) :
  (forall s, proj (f s) = proj s) -> keeps proj (modify f).
Proof. intros H s. apply H. Qed.

(** Sequencing, with what is known of the value the first statement
    returns. *)
Lemma keeps_bind_post {A B} (Q : A -> Prop) (m : M S A) (k : A -> M S B) :
  keeps proj m ->
  (forall s a, fst (m s) = Py.Ret a -> Q a) ->
  (forall a, Q a -> keeps proj (k a)) ->
  keeps proj (bind m k).
Proof.
  intros Hm HQ Hk s. unfold bind.
  specialize (Hm s). specialize (HQ s).
  destruct (m s) as [[a | e] s']; cbn in *.
  - rewrite (Hk a (HQ a eq_refl) s'). exact Hm.
  - exact Hm.
Qed.

Lemma keeps_bind {A B} (m : M S A) (k : A -> M S B) :
  keeps proj m -> (forall a, keeps proj (k a)) -> keeps proj (bind m k).
Proof.
  intros Hm Hk. apply (keeps_bind_post (fun _ => True)); auto.
Qed.

Lemma keeps_for_fold {A B} (xs : list A) (body : B -> A -> M S B) :
  (forall acc x, keeps proj (body acc x)) ->
  forall acc, keeps proj (for_fold xs acc body).
Proof.
  intros Hb. induction xs as [| x r IH]; intros acc; cbn [for_fold].
  - apply keeps_ret.
  - apply keeps_bind; auto.
Qed.

Lemma keeps_for_each {A} (xs : list A) (body : A -> M S unit) :
  (forall x, keeps proj (body x)) -> keeps proj (for_each xs body).
Proof. intros Hb. apply keeps_for_fold. auto. Qed.

End Keeps.

(** ** Emission and logging of the aggregator *)

Section Aggregator.

Import MetricAggregator.

Variable from_name : string -> Py.value -> Py.outcome Py.value.

Lemma consume_metric_keeps {X} (proj : t -> X) metric_name aggregates values :
  (forall bs w, proj (with_buckets bs w) = proj w) ->
  keeps proj (consume_metric metric_name aggregates values).
Proof.
  intros Hp w. unfold consume_metric.
  destruct values as [| first rest]; [reflexivity |].
  unfold bind, gets, lift, modify.
  destruct (Py.div first _) as [ts_key | e]; [| reflexivity].
  destruct (Dict.get Py.num_eqb (buckets w) ts_key) as [m |];
    [destruct (Dict.get String.eqb m metric_name) as [[a v] |] |];
    cbn; apply Hp.
Qed.

Lemma bucket_item_keeps {X} (proj : t -> X) ts_key :
  keeps proj (bucket_item ts_key).
Proof.
  intros w. unfold bucket_item, bind, gets.
  destruct (Dict.get Py.num_eqb (buckets w) ts_key); reflexivity.
Qed.

Lemma del_bucket_keeps {X} (proj : t -> X) ts_key :
  (forall bs w, proj (with_buckets bs w) = proj w) ->
  keeps proj (del_bucket ts_key).
Proof.
  intros Hp w. unfold del_bucket, bind, gets.
  destruct (Dict.get Py.num_eqb (buckets w) ts_key); [apply Hp | reflexivity].
Qed.

(** The body of the innermost loop never completes: what [from_name] does
    not raise, the two-argument [append] does. *)
Lemma collect_loop_returns_acc (agg_names : list string)
    (metric_name values : string) (acc : list Py.value) (w : t) :
  exists o,
    for_fold agg_names acc (fun aggregates agg_name =>
      agg_value <- lift (from_name agg_name (Py.VStr values)) ;;
      lift (Py.append_two_args aggregates (metric_name ++ "." ++ agg_name)
              agg_value)) w = (o, w)
    /\ forall a, o = Py.Ret a -> a = acc.
Proof.
  destruct agg_names as [| n r]; cbn [for_fold].
  - exists (Py.Ret acc). split; [reflexivity |]. intros a [= <-]. reflexivity.
  - unfold bind at 1. unfold bind at 1. unfold lift at 1.
    destruct (from_name n (Py.VStr values)) as [v | e].
    + exists (Py.Raise Py.TypeError). split; [reflexivity | discriminate].
    + exists (Py.Raise e). split; [reflexivity | discriminate].
Qed.

Lemma collect_metric_spec (acc : list Py.value) (key : string) (w : t) :
  exists o,
    collect_metric from_name acc key w = (o, w)
    /\ forall a, o = Py.Ret a -> a = acc.
Proof.
  unfold collect_metric, bind, lift.
  destruct (Py.unpack2_str key) as [[metric_name entry] | e];
    [| exists (Py.Raise e); split; [reflexivity | discriminate]].
  destruct (Py.unpack2_str entry) as [[agg_set values] | e];
    [| exists (Py.Raise e); split; [reflexivity | discriminate]].
  apply collect_loop_returns_acc.
Qed.

(** The list built by lines 204-209 is empty whenever the loop completes,
    and the loop changes nothing. *)
Lemma collect_all_spec (keys : list string) (acc : list Py.value) (w : t) :
  exists o,
    for_fold keys acc (collect_metric from_name) w = (o, w)
    /\ forall a, o = Py.Ret a -> a = acc.
Proof.
  revert acc. induction keys as [| k r IH]; intros acc; cbn [for_fold].
  - exists (Py.Ret acc). split; [reflexivity |]. intros a [= <-]. reflexivity.
  - unfold bind.
    destruct (collect_metric_spec acc k w) as (o & -> & Ho).
    destruct o as [a | e].
    + rewrite (Ho a eq_refl). apply IH.
    + exists (Py.Raise e). split; [reflexivity | discriminate].
Qed.

Lemma check_bucket_keeps_published prev_ts_key prev_ts ts_key :
  keeps published (check_bucket from_name prev_ts_key prev_ts ts_key).
Proof.
  unfold check_bucket.
  destruct (Py.num_ltb ts_key prev_ts_key).
  - apply keeps_bind; [apply keeps_lift |]. intros _.
    apply keeps_bind; [apply bucket_item_keeps |]. intros old.
    apply keeps_bind; [apply keeps_modify; reflexivity |]. intros _.
    apply del_bucket_keeps. reflexivity.
  - destruct (Py.num_eqb ts_key prev_ts_key); [| apply keeps_ret].
    apply keeps_bind; [apply bucket_item_keeps |]. intros bucket.
    apply (keeps_bind_post published (fun a => a = [])).
    + intros w. destruct (collect_all_spec (map fst bucket) [] w) as (o & -> & _).
      reflexivity.
    + intros w a. destruct (collect_all_spec (map fst bucket) [] w) as (o & -> & Ho).
      cbn. apply Ho.
    + intros a ->. apply keeps_bind; [apply keeps_ret |]. intros _.
      apply del_bucket_keeps. reflexivity.
Qed.

(** No pass of [check_buckets] hands anything to the publisher. *)
Lemma check_buckets_keeps_published : keeps published (check_buckets from_name).
Proof.
  unfold check_buckets.
  repeat (apply keeps_bind;
          [first [apply keeps_gets | apply keeps_lift] | intros ?]).
  apply keeps_for_each. intros ts_key. apply check_bucket_keeps_published.
Qed.

Lemma stopWorker_keeps_published : keeps published (stopWorker from_name).
Proof.
  unfold stopWorker. apply keeps_bind; [apply keeps_gets |].
  intros [lc |]; [| apply keeps_raise].
  apply keeps_bind; [| intros _; apply check_buckets_keeps_published].
  destruct (running lc); [apply keeps_modify; reflexivity | apply keeps_raise].
Qed.

Lemma step_keeps_published (w : t) (e : event) :
  published (step from_name w e) = published w.
Proof.
  destruct e as [metric_name aggregates values | | | seconds]; cbn [step].
  - apply consume_metric_keeps. reflexivity.
  - apply check_buckets_keeps_published.
  - apply stopWorker_keeps_published.
  - reflexivity.
Qed.

Lemma run_keeps_published (events : list event) (w : t) :
  published (run from_name w events) = published w.
Proof.
  revert w. induction events as [| e r IH]; intros w; [reflexivity |].
  unfold run in *. cbn [fold_left]. rewrite IH. apply step_keeps_published.
Qed.

End Aggregator.

(** C7: over one process lifetime, any interleaving of deliveries, ticks and
    the final pass of [stopWorker] while the clock moves forward, no two
    emitted aggregates share their name and bucket timestamp.  (The list of emitted aggregates stays as it
    started: see [run_keeps_published].) *)
Theorem no_aggregate_emitted_twice :
  forall (from_name : string -> Py.value -> Py.outcome Py.value)
         (size : Py.num) (now : Z) (events : list MetricAggregator.event),
    NoDup (map MetricAggregator.emission_key
             (MetricAggregator.published
                (MetricAggregator.run from_name
                   (MetricAggregator.fresh size now) events))).
Proof.
  intros. rewrite run_keeps_published. constructor.
Qed.

(** C6, as stated: a datapoint of bucket 7 arriving when [now_key = 10] is
    not dropped with a warning; [consume_metric] writes nothing to the
    log. *)
Lemma late_datapoint_gets_no_warning :
  let w := MetricAggregator.fresh Scenario.five 50 in
  ~ dropped_with_warning w
      (snd (MetricAggregator.consume_metric "m" ["sum"] [Scenario.point 35 1] w)).
Proof.
  intros w (_ & _ & entry & H). vm_compute in H. discriminate H.
Qed.

(** C6, amended: [consume_metric] makes no staleness check.  For every
    datapoint, late or not, it writes nothing to the log and emits nothing,
    and what it does is the same at every reading of the wall clock. *)
Theorem consume_metric_never_warns_nor_emits :
  forall (w : MetricAggregator.t) (metric_name : string)
         (aggregates : list string) (values : list Py.value),
    let result := MetricAggregator.consume_metric metric_name aggregates values w in
    MetricAggregator.log (snd result) = MetricAggregator.log w
    /\ MetricAggregator.published (snd result) = MetricAggregator.published w
    /\ forall now : Z,
         MetricAggregator.consume_metric metric_name aggregates values
           (MetricAggregator.with_clock now w)
         = (fst result, MetricAggregator.with_clock now (snd result)).
Proof.
  intros w metric_name aggregates values result. subst result.
  split; [apply consume_metric_keeps; reflexivity |].
  split; [apply consume_metric_keeps; reflexivity |].
  intros now. unfold MetricAggregator.consume_metric.
  destruct values as [| first rest]; [reflexivity |].
  unfold bind, gets, lift, modify.
  change (MetricAggregator.bucket_size (MetricAggregator.with_clock now w))
    with (MetricAggregator.bucket_size w).
  destruct (Py.div first _) as [ts_key | e]; [| reflexivity].
  change (MetricAggregator.buckets (MetricAggregator.with_clock now w))
    with (MetricAggregator.buckets w).
  destruct (Dict.get Py.num_eqb (MetricAggregator.buckets w) ts_key) as [m |];
    [destruct (Dict.get String.eqb m metric_name) as [[a v] |] |];
    reflexivity.
Qed.

(** ** MetricAggregator.check_buckets, stopWorker and startWorker *)

(** C4: a tick at [now_key = 3] does not close bucket 2.  The loop of line
    205 runs over the names of the bucket's metrics and unpacking the name
    "m" raises [ValueError]: nothing is published and the bucket stays.
    Two seconds later the key of the previous bucket is 2.4 and bucket 2 is
    below it: it takes the old-data branch, where the lookup of [log.warn]
    raises [AttributeError]; again nothing is emitted, logged or removed. *)
Theorem check_buckets_fails_to_close :
  forall from_name : string -> Py.value -> Py.outcome Py.value,
    MetricAggregator.check_buckets from_name (Scenario.holding 15)
    = (Py.Raise Py.ValueError, Scenario.holding 15)
    /\ MetricAggregator.check_buckets from_name (Scenario.holding 17)
       = (Py.Raise Py.AttributeError, Scenario.holding 17).
Proof. intros from_name. split; vm_compute; reflexivity. Qed.

(** C9: [stopWorker] stops the task and makes its one pass, but the pass
    raises [ValueError] on bucket 2 ([now_key - 1]): no aggregate is emitted
    and the bucket is still resident. *)
Theorem stopWorker_flushes_nothing :
  forall from_name : string -> Py.value -> Py.outcome Py.value,
    MetricAggregator.stopWorker from_name (Scenario.holding 15)
    = (Py.Raise Py.ValueError,
       MetricAggregator.with_task
         (Some {| MetricAggregator.call := MetricAggregator.Own "check_buckets";
                  MetricAggregator.running := false;
                  MetricAggregator.interval := Some Scenario.five |})
         (Scenario.holding 15)).
Proof. intros from_name. vm_compute. reflexivity. Qed.

(** C8: [startWorker] builds its looping call on [self._check_buckets], a
    name the class does not bind (its method is [check_buckets]).  Whatever
    the base class provides, the lookup is either an [AttributeError] or an
    attribute of the base class; when the base has no such name, no task is
    scheduled. *)
Theorem startWorker_schedules_no_check :
  (forall worker_attrs : list string,
      MetricAggregator.getattr worker_attrs "_check_buckets"
      = if existsb (String.eqb "_check_buckets") worker_attrs
        then Py.Ret (MetricAggregator.Base "_check_buckets")
        else Py.Raise Py.AttributeError)
  /\ (forall worker_attrs : list string,
        MetricAggregator.getattr worker_attrs "check_buckets"
        = Py.Ret (MetricAggregator.Own "check_buckets"))
  /\ (let result :=
        MetricAggregator.startWorker [] (Py.Int 0) (Py.Int 5)
          (MetricAggregator.fresh (Py.Int 0) 100) in
      fst result = Py.Raise Py.AttributeError
      /\ MetricAggregator._task (snd result) = None).
Proof.
  split; [| split].
  - intros worker_attrs. reflexivity.
  - intros worker_attrs. reflexivity.
  - vm_compute. split; reflexivity.
Qed.

(** ** GraphitePublisher.publish_metric *)

(** C5, as stated: in a UTC+2 deployment the aggregate
    [("m.sum", 42.0, 1700000000)] is not published with the body
    "42.000000 1699992800". *)
Lemma utc_plus_two_body_is_not_earlier :
  GraphitePublisher.publish_metric (GraphitePublisher.timezone_of_utc_plus 2)
    "m.sum" (Py.Float (Py.float_of_Z 42)) (Py.Int 1700000000) []
  <> (Py.Ret tt, [("m.sum", "42.000000 1699992800")]).
Proof. vm_compute. discriminate. Qed.

(** C5, amended: the body is the value as [%f], a space, and
    [timestamp - time.timezone] as [%d], where [time.timezone] counts
    seconds west of UTC; in a UTC+2 deployment it is -7200 and
    [("m.sum", 42.0, 1700000000)] gives "42.000000 1700007200" on routing
    key "m.sum". *)
Theorem publish_metric_line :
  (forall (timezone : Z) (metric : string) (value : spec_float)
          (timestamp : Z) (out : GraphitePublisher.sent),
      GraphitePublisher.publish_metric timezone metric (Py.Float value)
        (Py.Int timestamp) out
      = (Py.Ret tt,
         (out ++ [(metric, (Fmt.fmt_f_float value ++ " "
                              ++ Fmt.dec (timestamp - timezone))%string)])%list))
  /\ GraphitePublisher.publish_metric (GraphitePublisher.timezone_of_utc_plus 2)
       "m.sum" (Py.Float (Py.float_of_Z 42)) (Py.Int 1700000000) []
     = (Py.Ret tt, [("m.sum", "42.000000 1700007200")]).
Proof.
  split; [reflexivity | vm_compute; reflexivity].
Qed.

(** * Further properties of the module *)

(** ** find_bucket on every input *)

Lemma le_bytes_length (n : nat) (x : Z) : List.length (MD5.le_bytes n x) = n.
Proof.
  revert x. induction n as [| n IH]; intros x; cbn [MD5.le_bytes List.length];
    [reflexivity | now rewrite IH].
Qed.

Lemma digest_bytes_length (msg : list Z) :
  List.length (MD5.digest_bytes msg) = 16%nat.
Proof.
  unfold MD5.digest_bytes.
  destruct (fold_left MD5.process_block _ MD5.init) as [[[a b] c] d].
  rewrite !length_app, !le_bytes_length. reflexivity.
Qed.

Lemma digest_bytes_are_bytes (msg : list Z) :
  Forall MD5.is_byte (MD5.digest_bytes msg).
Proof.
  destruct (digest_bytes_shape msg) as (b & r & -> & H). exact H.
Qed.

Lemma be_fold_bound (bs : list Z) :
  Forall MD5.is_byte bs ->
  forall acc, 0 <= acc ->
    0 <= fold_left (fun acc b => 256 * acc + b) bs acc
      < (acc + 1) * 256 ^ Z.of_nat (List.length bs).
Proof.
  induction 1 as [| b r Hb _ IH]; intros acc Hacc; cbn [fold_left List.length].
  - cbn. lia.
  - unfold MD5.is_byte in Hb.
    specialize (IH (256 * acc + b) ltac:(lia)).
    rewrite Nat2Z.inj_succ, Z.pow_succ_r by lia.
    assert (0 < 256 ^ Z.of_nat (List.length r)) by (apply Z.pow_pos_nonneg; lia).
    nia.
Qed.

(** The digest is a 128-bit number. *)
Lemma digest_int_range (s : string) : 0 <= MD5.digest_int s < 2 ^ 128.
Proof.
  unfold MD5.digest_int, MD5.be_int.
  pose proof (be_fold_bound _ (digest_bytes_are_bytes (MD5.bytes_of_string s)) 0
                ltac:(lia)) as H.
  rewrite digest_bytes_length in H. exact H.
Qed.

(** X1: for every metric name, every integer bucket key and every non-zero
    number of buckets, [find_bucket] returns without raising: its result is
    the floor quotient of the 128-bit digest of ["<name>:<key>"] by the
    number of buckets. *)
Theorem find_bucket_never_raises :
  forall (self : TimeBucketPublisher.t) (metric_name : string) (ts_key : Z),
    TimeBucketPublisher.buckets self <> 0 ->
    let digest := MD5.digest_int (metric_name ++ ":" ++ Fmt.dec ts_key) in
    TimeBucketPublisher.find_bucket self metric_name (Py.Int ts_key)
    = Py.Ret (Py.Int (digest / TimeBucketPublisher.buckets self))
    /\ 0 <= digest < 2 ^ 128.
Proof.
  intros self metric_name ts_key HB digest. split.
  - apply find_bucket_quotient. exact HB.
  - apply digest_int_range.
Qed.

Lemma find_bucket_never_raises_witness :
  TimeBucketPublisher.find_bucket
    {| TimeBucketPublisher.buckets := 3;
       TimeBucketPublisher.bucket_size := Py.Int 60 |} "vumi.test" (Py.Int (-2))
  = Py.Ret (Py.Int (MD5.digest_int ("vumi.test" ++ ":" ++ Fmt.dec (-2)) / 3))
  /\ 0 <= MD5.digest_int ("vumi.test" ++ ":" ++ Fmt.dec (-2)) < 2 ^ 128.
Proof.
  apply (find_bucket_never_raises
           {| TimeBucketPublisher.buckets := 3;
              TimeBucketPublisher.bucket_size := Py.Int 60 |} "vumi.test" (-2)).
  cbn. discriminate.
Defined.

(** X2: a publisher configured with zero buckets cannot shard anything:
    [find_bucket] raises [ZeroDivisionError] for every metric name and every
    integer key. *)
Theorem find_bucket_zero_buckets :
  forall (size : Py.num) (metric_name : string) (ts_key : Z),
    TimeBucketPublisher.find_bucket
      {| TimeBucketPublisher.buckets := 0;
         TimeBucketPublisher.bucket_size := size |} metric_name (Py.Int ts_key)
    = Py.Raise Py.ZeroDivisionError.
Proof.
  intros size metric_name ts_key. unfold TimeBucketPublisher.find_bucket.
  cbn [Fmt.fmt_d Fmt.int_of Py.obind]. rewrite int16_hexdigest. reflexivity.
Qed.

(** X3: with [B > 0] buckets the number returned by [find_bucket] is never
    negative, and it names one of the queues [bucket.0 .. bucket.B-1]
    exactly when the digest is below [B * B]. *)
Theorem find_bucket_in_range_iff :
  forall (self : TimeBucketPublisher.t) (metric_name : string) (ts_key : Z),
    0 < TimeBucketPublisher.buckets self ->
    exists q,
      TimeBucketPublisher.find_bucket self metric_name (Py.Int ts_key)
      = Py.Ret (Py.Int q)
      /\ 0 <= q
      /\ (q < TimeBucketPublisher.buckets self
          <-> MD5.digest_int (metric_name ++ ":" ++ Fmt.dec ts_key)
              < TimeBucketPublisher.buckets self * TimeBucketPublisher.buckets self).
Proof.
  intros self metric_name ts_key HB.
  set (B := TimeBucketPublisher.buckets self) in *.
  set (d := MD5.digest_int (metric_name ++ ":" ++ Fmt.dec ts_key)).
  pose proof (digest_int_range (metric_name ++ ":" ++ Fmt.dec ts_key)) as Hd.
  fold d in Hd.
  exists (d / B). split; [| split].
  - apply find_bucket_quotient. fold B. lia.
  - apply Z.div_pos; lia.
  - pose proof (Z.div_mod d B ltac:(lia)) as E.
    pose proof (Z.mod_pos_bound d B HB) as M.
    split; intros H; nia.
Qed.

Lemma find_bucket_in_range_iff_witness :
  exists q,
    TimeBucketPublisher.find_bucket
      {| TimeBucketPublisher.buckets := 4;
         TimeBucketPublisher.bucket_size := Py.Int 5 |} "foo.bar" (Py.Int 17)
    = Py.Ret (Py.Int q)
    /\ 0 <= q
    /\ (q < 4 <-> MD5.digest_int ("foo.bar" ++ ":" ++ Fmt.dec 17) < 4 * 4).
Proof.
  apply (find_bucket_in_range_iff
           {| TimeBucketPublisher.buckets := 4;
              TimeBucketPublisher.bucket_size := Py.Int 5 |} "foo.bar" 17).
  reflexivity.
Defined.

(** ** publish_metric on every input *)

(** X4: the exception of [publish_metric] is decided by the first value
    alone: the error of unpacking it, else the error of dividing its
    timestamp by [bucket_size], else the [TypeError] of line 116.  The other
    values are never looked at and nothing reaches the broker. *)
Theorem publish_metric_error_of_first_value :
  forall (self : TimeBucketPublisher.t) (metric_name : string)
         (aggregates : list string) (first : Py.value)
         (rest : list Py.value) (out : TimeBucketPublisher.sent),
    TimeBucketPublisher.publish_metric self metric_name aggregates
      (first :: rest) out
    = (Py.Raise
         match Py.unpack2 first with
         | Py.Raise e => e
         | Py.Ret (timestamp, _) =>
             match Py.div timestamp
                     (Py.VNum (TimeBucketPublisher.bucket_size self)) with
             | Py.Raise e => e
             | Py.Ret _ => Py.TypeError
             end
         end, out).
Proof.
  intros. unfold TimeBucketPublisher.publish_metric.
  cbn [for_fold]. unfold bind at 1 2.
  unfold TimeBucketPublisher.group_value, bind, lift.
  destruct (Py.unpack2 first) as [[timestamp value] | e]; [| reflexivity].
  destruct (Py.div timestamp _) as [ts_key | e]; reflexivity.
Qed.

(** X5: [publish_metric] never hands a message to the broker, whatever it is
    given, and it returns normally for an empty [values] only. *)
Theorem publish_metric_publishes_nothing :
  forall (self : TimeBucketPublisher.t) (metric_name : string)
         (aggregates : list string) (values : list Py.value)
         (out : TimeBucketPublisher.sent),
    let result :=
      TimeBucketPublisher.publish_metric self metric_name aggregates values out in
    snd result = out /\ (fst result = Py.Ret tt <-> values = []).
Proof.
  intros self metric_name aggregates [| first rest] out result; subst result.
  - split; [reflexivity | split; intros _; reflexivity].
  - destruct (group_value_first self first out) as [e He].
    assert (TimeBucketPublisher.publish_metric self metric_name aggregates
              (first :: rest) out = (Py.Raise e, out)) as E.
    { unfold TimeBucketPublisher.publish_metric, bind. cbn [for_fold].
      unfold bind at 1. rewrite He. reflexivity. }
    rewrite E. cbn.
    split; [reflexivity | split; intros H; discriminate H].
Qed.

(** ** Numbers as dictionary keys *)

Lemma SFcompare_refl (f : spec_float) :
  f <> S754_nan -> SFcompare f f = Some Eq.
Proof.
  destruct f as [s | s | | s m e]; intros H; cbn.
  - reflexivity.
  - destruct s; reflexivity.
  - contradiction.
  - rewrite Z.compare_refl, Pos.compare_cont_refl. destruct s; reflexivity.
Qed.

Lemma num_eqb_refl (k : Py.num) :
  Buckets.is_nan k = false -> Py.num_eqb k k = true.
Proof.
  destruct k as [z | f]; intros H; unfold Py.num_eqb; cbn.
  - now rewrite Z.compare_refl.
  - rewrite SFcompare_refl; [reflexivity |].
    intros ->. discriminate H.
Qed.

Lemma num_cmp_not_nan (k p : Py.num) (c : comparison) :
  Py.num_cmp k p = Some c -> Buckets.is_nan k = false.
Proof.
  destruct k as [z | [s | s | | s m e]]; try reflexivity.
  destruct p as [y | g]; cbn; discriminate.
Qed.

Lemma num_ltb_self_eq (k p : Py.num) :
  Py.num_ltb k p = true -> Py.num_eqb k k = true.
Proof.
  unfold Py.num_ltb. intros H. apply num_eqb_refl.
  destruct (Py.num_cmp k p) as [c |] eqn:E; [| discriminate].
  exact (num_cmp_not_nan _ _ _ E).
Qed.

Lemma num_eqb_self_eq (k p : Py.num) :
  Py.num_eqb k p = true -> Py.num_eqb k k = true.
Proof.
  unfold Py.num_eqb at 1. intros H. apply num_eqb_refl.
  destruct (Py.num_cmp k p) as [c |] eqn:E; [| discriminate].
  exact (num_cmp_not_nan _ _ _ E).
Qed.

(** ** Lookups in a dict kept as a list *)

Section DictFacts.

Context {K V : Type} (eqb : K -> K -> bool).

Lemma get_skip (front d : list (K * V)) (k : K) :
  (forall k', In k' (map fst front) -> eqb k' k = false) ->
  Dict.get eqb (front ++ d) k = Dict.get eqb d k.
Proof.
  induction front as [| [k' v'] r IH]; intros H; [reflexivity |].
  cbn. rewrite (H k') by (left; reflexivity).
  apply IH. intros k'' Hk. apply H. right. exact Hk.
Qed.

Lemma del_skip (front d : list (K * V)) (k : K) :
  (forall k', In k' (map fst front) -> eqb k' k = false) ->
  Dict.del eqb (front ++ d) k = (front ++ Dict.del eqb d k)%list.
Proof.
  induction front as [| [k' v'] r IH]; intros H; [reflexivity |].
  cbn. rewrite (H k') by (left; reflexivity).
  f_equal. apply IH. intros k'' Hk. apply H. right. exact Hk.
Qed.

Lemma del_incl (d : list (K * V)) (k : K) : incl (Dict.del eqb d k) d.
Proof.
  induction d as [| [k' v'] r IH]; cbn; [apply incl_refl |].
  destruct (eqb k' k).
  - apply incl_tl, incl_refl.
  - apply incl_cons; [left; reflexivity | apply incl_tl, IH].
Qed.

(** What was stored under a key is what a lookup of that key finds. *)
Lemma get_set_same (d : list (K * V)) (k : K) (v : V) :
  eqb k k = true -> Dict.get eqb (Dict.set eqb d k v) k = Some v.
Proof.
  intros Hk. induction d as [| [k' v'] r IH]; cbn.
  - now rewrite Hk.
  - destruct (eqb k' k) eqn:E; cbn; rewrite E; [reflexivity | exact IH].
Qed.


End DictFacts.


(** ** One pass of check_buckets over a well-formed bucket map *)

Lemma for_each_cons {S A} (x : A) (xs : list A) (body : A -> M S unit) (s : S) :
  for_each (x :: xs) body s
  = match body x s with
    | (Py.Ret _, s') => for_each xs body s'
    | (Py.Raise e, s') => (Py.Raise e, s')
    end.
Proof.
  unfold for_each. cbn [for_fold]. unfold bind.
  destruct (body x s) as [[[] | e] s']; reflexivity.
Qed.

Lemma for_each_app {S A} (xs ys : list A) (body : A -> M S unit) (s : S) :
  for_each (xs ++ ys) body s
  = match for_each xs body s with
    | (Py.Ret _, s') => for_each ys body s'
    | (Py.Raise e, s') => (Py.Raise e, s')
    end.
Proof.
  revert s. induction xs as [| x r IH]; intros s; [reflexivity |].
  cbn [app]. rewrite !for_each_cons.
  destruct (body x s) as [[[] | e] s']; [apply IH | reflexivity].
Qed.

(** Every string fails the unpacking of line 205: a name of two characters
    gets as far as its second character, which is one character long. *)
Lemma unpack_key_fails (key : string) :
  Py.obind (Py.unpack2_str key) (fun p => Py.unpack2_str (snd p))
  = Py.Raise Py.ValueError.
Proof.
  destruct key as [| c1 [| c2 [| c3 r]]]; reflexivity.
Qed.

Section Sweep.

Import MetricAggregator.

Variable from_name : string -> Py.value -> Py.outcome Py.value.

Lemma collect_metric_raises (acc : list Py.value) (key : string) (w : t) :
  collect_metric from_name acc key w = (Py.Raise Py.ValueError, w).
Proof.
  pose proof (unpack_key_fails key) as H.
  unfold collect_metric, bind, lift.
  destruct (Py.unpack2_str key) as [[metric_name entry] | e]; cbn in H.
  - destruct (Py.unpack2_str entry) as [[agg_set values] | e];
      [discriminate H | now injection H as ->].
  - now injection H as ->.
Qed.

Variables (prev_ts_key prev_ts : Py.num).

(** A bucket below [prev_ts_key] stops the pass at line 200. *)
Lemma check_bucket_stale_raises (w : t) (k : Py.num) :
  Py.num_ltb k prev_ts_key = true ->
  check_bucket from_name prev_ts_key prev_ts k w
  = (Py.Raise Py.AttributeError, w).
Proof.
  intros Hlt. unfold check_bucket. rewrite Hlt. reflexivity.
Qed.

Lemma check_bucket_open (w : t) (k : Py.num) :
  Py.num_ltb k prev_ts_key = false -> Py.num_eqb k prev_ts_key = false ->
  check_bucket from_name prev_ts_key prev_ts k w = (Py.Ret tt, w).
Proof.
  intros Hlt Heq. unfold check_bucket. now rewrite Hlt, Heq.
Qed.

Section Step.

Variables (w : t) (done tail : list (Py.num * metrics)).
Variables (k : Py.num) (m : metrics).

Hypothesis resident : buckets w = (done ++ (k, m) :: tail)%list.
Hypothesis fresh_key :
  forall k', In k' (map fst done) -> Py.num_eqb k' k = false.

Lemma bucket_item_found :
  Py.num_eqb k k = true -> bucket_item k w = (Py.Ret m, w).
Proof.
  intros Hk. unfold bucket_item, bind, gets.
  rewrite resident, (get_skip _ _ _ _ fresh_key). cbn. now rewrite Hk.
Qed.

Lemma del_bucket_found :
  Py.num_eqb k k = true ->
  del_bucket k w = (Py.Ret tt, with_buckets (done ++ tail) w).
Proof.
  intros Hk. unfold del_bucket, bind, gets, modify.
  rewrite resident, (get_skip _ _ _ _ fresh_key),
    (del_skip _ _ _ _ fresh_key).
  cbn. now rewrite Hk.
Qed.

Lemma check_bucket_due_empty :
  Py.num_ltb k prev_ts_key = false -> Py.num_eqb k prev_ts_key = true ->
  m = [] ->
  check_bucket from_name prev_ts_key prev_ts k w
  = (Py.Ret tt, with_buckets (done ++ tail) w).
Proof.
  intros Hlt Heq Hm. pose proof (num_eqb_self_eq _ _ Heq) as Hk.
  unfold check_bucket. rewrite Hlt, Heq. unfold bind at 1.
  rewrite (bucket_item_found Hk), Hm. cbn [map for_fold for_each].
  unfold bind, ret. apply del_bucket_found. exact Hk.
Qed.

Lemma check_bucket_due_raises :
  Py.num_ltb k prev_ts_key = false -> Py.num_eqb k prev_ts_key = true ->
  m <> [] ->
  check_bucket from_name prev_ts_key prev_ts k w = (Py.Raise Py.ValueError, w).
Proof.
  intros Hlt Heq Hm. pose proof (num_eqb_self_eq _ _ Heq) as Hk.
  unfold check_bucket. rewrite Hlt, Heq. unfold bind at 1.
  rewrite (bucket_item_found Hk).
  destruct m as [| [name e] r]; [contradiction |].
  cbn [map fst for_fold]. unfold bind. rewrite collect_metric_raises.
  reflexivity.
Qed.

End Step.

(** The loop of line 198 over a stretch [todo] of the bucket map in which
    no key is [==] to a later one and no bucket is stale or due with a
    metric: the empty due buckets are deleted, the others kept. *)
Lemma sweep (todo : list (Py.num * metrics)) :
  forall (done rest : list (Py.num * metrics)) (w : t),
    buckets w = (done ++ todo ++ rest)%list ->
    (forall k' k, In k' (map fst done) -> In k (map fst todo) ->
                  Py.num_eqb k' k = false) ->
    Buckets.distinct (map fst todo) = true ->
    forallb (fun item => negb (Buckets.blocking prev_ts_key item)) todo = true ->
    for_each (map fst todo) (check_bucket from_name prev_ts_key prev_ts) w
    = (Py.Ret tt,
       with_buckets
         (done ++ filter (Buckets.open prev_ts_key) todo ++ rest) w).
Proof.
  induction todo as [| [k m] r IH]; intros done rest w Hb Hfresh Hd Hok.
  - destruct w. cbn in *. now subst.
  - cbn [map fst] in *. rewrite for_each_cons.
    cbn [Buckets.distinct] in Hd. apply andb_prop in Hd as [Hk Hd].
    cbn [forallb] in Hok. apply andb_prop in Hok as [Hkm Hok].
    assert (forall k', In k' (map fst done) -> Py.num_eqb k' k = false) as Hf
        by (intros k' Hin; apply Hfresh; [exact Hin | left; reflexivity]).
    assert (buckets w = (done ++ (k, m) :: r ++ rest)%list) as Hb' by exact Hb.
    unfold Buckets.blocking, Buckets.due, Buckets.open, Buckets.stale in Hkm |- *.
    cbn [filter fst snd] in *.
    destruct (Py.num_ltb k prev_ts_key) eqn:Hlt; [discriminate Hkm |].
    destruct (Py.num_eqb k prev_ts_key) eqn:Heq.
    + assert (m = []) as Hm.
      { destruct m; [reflexivity | discriminate Hkm]. }
      rewrite (check_bucket_due_empty w done (r ++ rest) k m Hb' Hf Hlt Heq Hm).
      rewrite (IH done rest); [| reflexivity | | exact Hd | exact Hok].
      * destruct w. reflexivity.
      * intros k' k2 H1 H2. apply Hfresh; [exact H1 | right; exact H2].
    + rewrite (check_bucket_open w k Hlt Heq).
      rewrite (IH (done ++ [(k, m)])%list rest).
      * destruct w. cbn. now rewrite <- !app_assoc.
      * rewrite Hb. now rewrite <- app_assoc.
      * intros k' k2 H1 H2. rewrite map_app in H1.
        apply in_app_or in H1 as [H1 | [<- | []]].
        -- apply Hfresh; [exact H1 | right; exact H2].
        -- rewrite forallb_forall in Hk.
           specialize (Hk k2 H2). now apply negb_true_iff in Hk.
      * exact Hd.
      * exact Hok.
Qed.

(** The pass after lines 196-197 have succeeded. *)
Lemma check_buckets_after_previous (w : t) :
  Buckets.previous w = Py.Ret (prev_ts_key, prev_ts) ->
  check_buckets from_name w
  = for_each (map fst (buckets w))
      (check_bucket from_name prev_ts_key prev_ts) w.
Proof.
  unfold Buckets.previous, check_buckets, bind, gets, lift.
  destruct (Py.num_div _ _) as [key |]; cbn; [| discriminate].
  destruct (Py.num_sub _ _) as [pk |]; cbn; [| discriminate].
  destruct (Py.num_mul _ _) as [pt |]; cbn; [| discriminate].
  now intros [= -> ->].
Qed.

(** A pass that meets no stale bucket and no due bucket with a metric. *)
Lemma pass_unblocked (w : t) :
  Buckets.previous w = Py.Ret (prev_ts_key, prev_ts) ->
  Buckets.distinct (map fst (buckets w)) = true ->
  forallb (fun item => negb (Buckets.blocking prev_ts_key item))
    (buckets w) = true ->
  check_buckets from_name w
  = (Py.Ret tt,
     with_buckets (filter (Buckets.open prev_ts_key) (buckets w)) w).
Proof.
  intros Hp Hd Hok. rewrite (check_buckets_after_previous w Hp).
  rewrite (sweep (buckets w) [] [] w);
    [| now rewrite app_nil_r | intros ? ? [] | exact Hd | exact Hok].
  cbn [app]. now rewrite app_nil_r.
Qed.

End Sweep.

(** X6: a pass of [check_buckets] over a bucket map with pairwise distinct
    keys, in which no bucket is below [prev_ts_key] and no bucket equal to
    it holds a metric, returns normally; it deletes the (empty) buckets
    equal to [prev_ts_key], keeps every other bucket in place and touches
    nothing else, the log included. *)
Theorem check_buckets_clean_pass :
  forall (from_name : string -> Py.value -> Py.outcome Py.value)
         (w : MetricAggregator.t) (prev_ts_key prev_ts : Py.num),
    Buckets.previous w = Py.Ret (prev_ts_key, prev_ts) ->
    Buckets.distinct (map fst (MetricAggregator.buckets w)) = true ->
    forallb (fun item => negb (Buckets.blocking prev_ts_key item))
      (MetricAggregator.buckets w) = true ->
    MetricAggregator.check_buckets from_name w
    = (Py.Ret tt,
       MetricAggregator.with_buckets
         (filter (Buckets.open prev_ts_key) (MetricAggregator.buckets w)) w).
Proof.
  intros from_name w prev_ts_key prev_ts Hp Hd Hok.
  exact (pass_unblocked from_name prev_ts_key prev_ts w Hp Hd Hok).
Qed.

Lemma check_buckets_clean_pass_witness :
  MetricAggregator.check_buckets (fun _ v => Py.Ret v) Sample.tidy
  = (Py.Ret tt,
     MetricAggregator.with_buckets
       [(Py.Int 6, Scenario.bucket_n); (Py.Int 7, Scenario.bucket_m)]
       Sample.tidy).
Proof.
  apply (check_buckets_clean_pass (fun _ v => Py.Ret v) Sample.tidy
           (Py.Float (Py.float_of_Z 5)) (Py.Float (Py.float_of_Z 25)));
    vm_compute; reflexivity.
Defined.

Lemma find_first {A} (P : A -> bool) (l : list A) (x : A) :
  find P l = Some x ->
  exists pre post,
    l = (pre ++ x :: post)%list /\ P x = true
    /\ forallb (fun y => negb (P y)) pre = true.
Proof.
  induction l as [| a r IH]; cbn; [discriminate |].
  destruct (P a) eqn:Ha.
  - intros [= ->]. exists [], r. repeat split; assumption.
  - intros H. destruct (IH H) as (pre & post & -> & Hx & Hpre).
    exists (a :: pre), post. cbn. rewrite Ha. repeat split; assumption.
Qed.

Lemma distinct_app (a b : list Py.num) :
  Buckets.distinct (a ++ b) = true ->
  Buckets.distinct a = true
  /\ (forall k' k, In k' a -> In k b -> Py.num_eqb k' k = false)
  /\ Buckets.distinct b = true.
Proof.
  induction a as [| x r IH]; cbn [app Buckets.distinct]; intros H.
  - repeat split; [intros ? ? [] | exact H].
  - apply andb_prop in H as [Hx H]. destruct (IH H) as (Hr & Hrb & Hb).
    rewrite forallb_app in Hx. apply andb_prop in Hx as [Hxr Hxb].
    rewrite Hxr, Hr. repeat split; [| exact Hb].
    intros k' k [<- | Hin] Hk.
    + rewrite forallb_forall in Hxb. specialize (Hxb k Hk).
      now apply negb_true_iff in Hxb.
    + now apply Hrb.
Qed.

(** The pass up to the first bucket that is stale or due with a metric,
    where it stops. *)
Lemma pass_stops_at_blocking
    (from_name : string -> Py.value -> Py.outcome Py.value)
    (w : MetricAggregator.t) (prev_ts_key prev_ts : Py.num)
    (pre post : list (Py.num * MetricAggregator.metrics))
    (item : Py.num * MetricAggregator.metrics) :
  Buckets.previous w = Py.Ret (prev_ts_key, prev_ts) ->
  Buckets.distinct (map fst (MetricAggregator.buckets w)) = true ->
  MetricAggregator.buckets w = (pre ++ item :: post)%list ->
  Buckets.blocking prev_ts_key item = true ->
  forallb (fun it => negb (Buckets.blocking prev_ts_key it)) pre = true ->
  MetricAggregator.check_buckets from_name w
  = (Py.Raise (Buckets.blocked_by prev_ts_key item),
     MetricAggregator.with_buckets
       (filter (Buckets.open prev_ts_key) pre ++ item :: post) w).
Proof.
  intros Hp Hd Hb Hx Hpre. destruct item as [k m].
  rewrite (check_buckets_after_previous from_name _ _ w Hp).
  rewrite Hb in Hd. rewrite map_app in Hd.
  destruct (distinct_app _ _ Hd) as (Hdpre & Hcross & _).
  rewrite Hb at 1. rewrite map_app, for_each_app.
  rewrite (sweep from_name prev_ts_key prev_ts pre [] ((k, m) :: post) w
             Hb ltac:(intros ? ? []) Hdpre Hpre).
  cbn [map fst app]. rewrite for_each_cons.
  unfold Buckets.blocking, Buckets.blocked_by, Buckets.stale, Buckets.due in *.
  cbn [fst snd] in *.
  destruct (Py.num_ltb k prev_ts_key) eqn:Hlt.
  - now rewrite (check_bucket_stale_raises from_name _ _ _ k Hlt).
  - cbn [orb negb andb] in Hx. apply andb_prop in Hx as [Heq Hhold].
    erewrite check_bucket_due_raises;
      [reflexivity | reflexivity | | exact Hlt | exact Heq
       | intros ->; discriminate Hhold].
    intros k' Hin. apply Hcross; [| left; reflexivity].
    apply in_map_iff in Hin as ((k2 & m2) & <- & Hin).
    apply filter_In in Hin as [Hin _].
    apply in_map_iff. exists (k2, m2). split; [reflexivity | exact Hin].
Qed.

(** X7: over a bucket map with pairwise distinct keys, the pass stops at
    the first bucket (in dict order) that is below [prev_ts_key] or is equal
    to it and holds a metric: with [AttributeError] at a bucket below (the
    lookup of [log.warn], line 200), with [ValueError] at one due for
    closing (the unpacking of line 205).  It logs nothing and emits
    nothing, and every bucket below [prev_ts_key] and every due bucket that
    holds a metric is still resident afterwards. *)
Theorem check_buckets_stops_at_first_blocking_bucket :
  forall (from_name : string -> Py.value -> Py.outcome Py.value)
         (w : MetricAggregator.t) (prev_ts_key prev_ts : Py.num)
         (item : Py.num * MetricAggregator.metrics),
    Buckets.previous w = Py.Ret (prev_ts_key, prev_ts) ->
    Buckets.distinct (map fst (MetricAggregator.buckets w)) = true ->
    find (Buckets.blocking prev_ts_key) (MetricAggregator.buckets w)
    = Some item ->
    let result := MetricAggregator.check_buckets from_name w in
    fst result = Py.Raise (Buckets.blocked_by prev_ts_key item)
    /\ MetricAggregator.log (snd result) = MetricAggregator.log w
    /\ MetricAggregator.published (snd result) = MetricAggregator.published w
    /\ forall other,
         In other (MetricAggregator.buckets w) ->
         Buckets.blocking prev_ts_key other = true ->
         In other (MetricAggregator.buckets (snd result)).
Proof.
  intros from_name w prev_ts_key prev_ts item Hp Hd Hfind result.
  subst result.
  destruct (find_first _ _ _ Hfind) as (pre & post & Hb & Hx & Hpre).
  rewrite (pass_stops_at_blocking from_name w prev_ts_key prev_ts
             pre post item Hp Hd Hb Hx Hpre).
  cbn [fst snd]. repeat split.
  cbn [MetricAggregator.buckets MetricAggregator.with_buckets].
  intros other Hin Hblock. rewrite Hb in Hin.
  apply in_app_or in Hin as [Hin | Hin].
  - rewrite forallb_forall in Hpre. specialize (Hpre other Hin).
    rewrite Hblock in Hpre. discriminate Hpre.
  - apply in_or_app. right. exact Hin.
Qed.

Lemma check_buckets_stops_at_first_blocking_bucket_witness :
  let result :=
    MetricAggregator.check_buckets (fun _ v => Py.Ret v) Sample.loaded in
  fst result = Py.Raise Py.ValueError
  /\ MetricAggregator.log (snd result) = MetricAggregator.log Sample.loaded
  /\ MetricAggregator.published (snd result)
     = MetricAggregator.published Sample.loaded
  /\ forall other,
       In other (MetricAggregator.buckets Sample.loaded) ->
       Buckets.blocking (Py.Float (Py.float_of_Z 5)) other = true ->
       In other (MetricAggregator.buckets (snd result)).
Proof.
  apply (check_buckets_stops_at_first_blocking_bucket (fun _ v => Py.Ret v)
           Sample.loaded (Py.Float (Py.float_of_Z 5))
           (Py.Float (Py.float_of_Z 25)) (Py.Int 5, Scenario.bucket_n));
    vm_compute; reflexivity.
Defined.

(** ** What a pass may change *)

Section Within.

Context {S : Type} (R : S -> S -> Prop).
Hypothesis R_refl : forall s, R s s.
Hypothesis R_trans : forall a b c, R a b -> R b c -> R a c.

Lemma within_pure {A} (m : M S A) :
  (forall s, snd (m s) = s) -> within R m.
Proof. intros H s. rewrite H. apply R_refl. Qed.

Lemma within_bind_post {A B} (Q : A -> Prop) (m : M S A) (k : A -> M S B) :
  within R m ->
  (forall s a, fst (m s) = Py.Ret a -> Q a) ->
  (forall a, Q a -> within R (k a)) ->
  within R (bind m k).
Proof.
  intros Hm HQ Hk s. unfold bind.
  specialize (Hm s). specialize (HQ s).
  destruct (m s) as [[a | e] s']; cbn in *; [| exact Hm].
  exact (R_trans _ _ _ Hm (Hk a (HQ a eq_refl) s')).
Qed.

Lemma within_bind {A B} (m : M S A) (k : A -> M S B) :
  within R m -> (forall a, within R (k a)) -> within R (bind m k).
Proof.
  intros Hm Hk. apply (within_bind_post (fun _ => True)); auto.
Qed.

Lemma within_for_each {A} (xs : list A) (body : A -> M S unit) :
  (forall x, within R (body x)) -> within R (for_each xs body).
Proof.
  intros Hb. unfold for_each. generalize tt.
  induction xs as [| x r IH]; intros u; cbn [for_fold].
  - apply within_pure. reflexivity.
  - apply within_bind; auto.
Qed.

End Within.

Lemma shrinks_refl (w : MetricAggregator.t) : shrinks w w.
Proof.
  unfold shrinks. repeat split; try reflexivity; [apply incl_refl |].
  exists []. now rewrite app_nil_r.
Qed.

Lemma shrinks_trans (a b c : MetricAggregator.t) :
  shrinks a b -> shrinks b c -> shrinks a c.
Proof.
  unfold shrinks.
  intros (Hi1 & (l1 & Hl1) & H1) (Hi2 & (l2 & Hl2) & H2).
  split; [exact (incl_tran Hi2 Hi1) |].
  split; [exists (l1 ++ l2)%list; now rewrite Hl2, Hl1, app_assoc |].
  intuition congruence.
Qed.

Section Pass.

Import MetricAggregator.

Variable from_name : string -> Py.value -> Py.outcome Py.value.

Lemma del_bucket_shrinks (ts_key : Py.num) : within shrinks (del_bucket ts_key).
Proof.
  intros w. unfold del_bucket, bind, gets, modify.
  destruct (Dict.get Py.num_eqb (buckets w) ts_key); [| apply shrinks_refl].
  cbn. unfold shrinks. cbn. repeat split; [apply del_incl |].
  exists []. now rewrite app_nil_r.
Qed.

Lemma write_log_shrinks (e : log_entry) : within shrinks (write_log e).
Proof.
  intros w. unfold write_log, modify, shrinks. cbn.
  repeat split; [apply incl_refl | now exists [e]].
Qed.

Lemma check_bucket_shrinks (prev_ts_key prev_ts ts_key : Py.num) :
  within shrinks (check_bucket from_name prev_ts_key prev_ts ts_key).
Proof.
  pose proof shrinks_refl as Rr. pose proof shrinks_trans as Rt.
  unfold check_bucket.
  destruct (Py.num_ltb ts_key prev_ts_key).
  - apply within_bind;
      [assumption | apply within_pure; [assumption | reflexivity] |].
    intros _. apply within_bind;
      [assumption | apply within_pure; [assumption | apply (bucket_item_keeps (fun x => x))] |].
    intros old. apply within_bind; [assumption | apply write_log_shrinks |].
    intros _. apply del_bucket_shrinks.
  - destruct (Py.num_eqb ts_key prev_ts_key);
      [| apply within_pure; [assumption | reflexivity]].
    apply within_bind;
      [assumption | apply within_pure; [assumption | apply (bucket_item_keeps (fun x => x))] |].
    intros bucket.
    apply (within_bind_post shrinks Rt (fun a => a = [])).
    + apply within_pure; [assumption |]. intros w.
      destruct (collect_all_spec from_name (map fst bucket) [] w) as (o & -> & _).
      reflexivity.
    + intros w a.
      destruct (collect_all_spec from_name (map fst bucket) [] w) as (o & -> & Ho).
      cbn. apply Ho.
    + intros a ->. apply within_bind;
        [assumption | apply within_pure; [assumption | reflexivity] |].
      intros _. apply del_bucket_shrinks.
Qed.

Lemma check_buckets_shrinks : within shrinks (check_buckets from_name).
Proof.
  pose proof shrinks_refl as Rr. pose proof shrinks_trans as Rt.
  unfold check_buckets.
  repeat (apply within_bind;
          [assumption | apply within_pure; [assumption | reflexivity] | intros ?]).
  apply within_for_each; [assumption | assumption |].
  intros ts_key. apply check_bucket_shrinks.
Qed.

(** With no bucket resident a pass changes nothing at all. *)
Lemma check_buckets_no_buckets (w : t) :
  buckets w = [] -> snd (check_buckets from_name w) = w.
Proof.
  intros H. unfold check_buckets, bind, gets, lift.
  destruct (Py.num_div _ _) as [key |]; cbn; [| reflexivity].
  destruct (Py.num_sub _ _) as [pk |]; cbn; [| reflexivity].
  destruct (Py.num_mul _ _) as [pt |]; cbn; [| reflexivity].
  now rewrite H.
Qed.

Lemma step_documented (size : Py.num) (now : Z) (e : event) :
  Buckets.documented e = true ->
  exists later, step from_name (fresh size now) e = fresh size later
                /\ now <= later.
Proof.
  destruct e as [metric_name aggregates values | | | seconds]; intros H.
  - exists now. split; [| lia].
    destruct values as [| [n | s | xs | xs] r];
      [reflexivity | discriminate H | reflexivity ..].
  - exists now. split; [| lia]. cbn [step].
    now rewrite check_buckets_no_buckets.
  - exists now. split; [reflexivity | lia].
  - exists (now + Z.of_N seconds). split; [reflexivity | lia].
Qed.

End Pass.

(** X8: a pass of [check_buckets] only ever drops buckets and adds log
    entries.  Whatever the worker and however the pass ends, every bucket
    resident afterwards was resident before with the same contents, the log
    is the old log with entries appended, and [bucket_size], the consumer,
    the task, the emitted aggregates and the clock are untouched. *)
Theorem check_buckets_only_removes :
  forall (from_name : string -> Py.value -> Py.outcome Py.value)
         (w : MetricAggregator.t),
    shrinks w (snd (MetricAggregator.check_buckets from_name w)).
Proof. intros from_name w. apply check_buckets_shrinks. Qed.

(** X9: an aggregator that is only sent datapoints of the documented form
    (a [values] that is empty or starts with a pair) never holds a bucket:
    after any such sequence of deliveries, ticks, stop signals and clock
    advances the worker is as freshly started, with only its clock moved
    on. *)
Theorem documented_deliveries_leave_no_trace :
  forall (from_name : string -> Py.value -> Py.outcome Py.value)
         (size : Py.num) (events : list MetricAggregator.event) (now : Z),
    forallb Buckets.documented events = true ->
    exists later,
      MetricAggregator.run from_name (MetricAggregator.fresh size now) events
      = MetricAggregator.fresh size later
      /\ now <= later.
Proof.
  intros from_name size events.
  induction events as [| e r IH]; intros now H.
  - exists now. split; [reflexivity | lia].
  - cbn [forallb] in H. apply andb_prop in H as [He Hr].
    destruct (step_documented from_name size now e He) as (mid & Hs & Hm).
    destruct (IH mid Hr) as (later & Hl & Hml).
    exists later. split; [| lia].
    unfold MetricAggregator.run in *. cbn [fold_left]. rewrite Hs. exact Hl.
Qed.

Lemma documented_deliveries_leave_no_trace_witness :
  exists later,
    MetricAggregator.run (fun _ v => Py.Ret v)
      (MetricAggregator.fresh Scenario.five 100) Sample.trace
    = MetricAggregator.fresh Scenario.five later
    /\ 100 <= later.
Proof.
  apply (documented_deliveries_leave_no_trace (fun _ v => Py.Ret v)
           Scenario.five Sample.trace 100).
  reflexivity.
Defined.

(** ** consume_metric when line 219 can divide *)

Lemma set_update_in (xs s : list string) (a : string) :
  In a (Py.set_update s xs) <-> In a s \/ In a xs.
Proof.
  revert s. induction xs as [| x r IH]; intros s; cbn [Py.set_update].
  - cbn. tauto.
  - rewrite IH. destruct (existsb (String.eqb x) s) eqn:E.
    + apply existsb_exists in E as (y & Hy & Hxy).
      apply String.eqb_eq in Hxy. subst y. cbn. intuition (subst; auto).
    + rewrite in_app_iff. cbn. tauto.
Qed.

Lemma set_update_nodup (xs s : list string) :
  NoDup s -> NoDup (Py.set_update s xs).
Proof.
  revert s. induction xs as [| x r IH]; intros s Hs; cbn [Py.set_update];
    [exact Hs |].
  apply IH. destruct (existsb (String.eqb x) s) eqn:E; [exact Hs |].
  apply NoDup_app; [exact Hs | repeat constructor; intros [] |].
  intros a Ha [-> | []].
  assert (existsb (String.eqb a) s = true) as C; [| congruence].
  apply existsb_exists. exists a. split; [exact Ha | apply String.eqb_refl].
Qed.

(** The worker after a call whose division gave [ts_key]. *)
Lemma consume_metric_result (w : MetricAggregator.t) (metric_name : string)
    (aggregates : list string) (q : Py.num) (rest : list Py.value)
    (ts_key : Py.num) :
  Py.num_div q (MetricAggregator.bucket_size w) = Py.Ret ts_key ->
  MetricAggregator.consume_metric metric_name aggregates (Py.VNum q :: rest) w
  = (Py.Ret tt,
     MetricAggregator.with_buckets
       (Dict.set Py.num_eqb (MetricAggregator.buckets w) ts_key
          (Dict.set String.eqb (Buckets.bucket w ts_key) metric_name
             (Py.set_update (fst (Buckets.entry w ts_key metric_name))
                aggregates,
              (snd (Buckets.entry w ts_key metric_name)
                 ++ Py.VNum q :: rest)%list)))
       w).
Proof.
  intros Hdiv.
  unfold MetricAggregator.consume_metric, bind, gets, lift, modify.
  cbn [Py.div]. rewrite Hdiv. unfold Buckets.entry, Buckets.bucket.
  destruct (Dict.get Py.num_eqb (MetricAggregator.buckets w) ts_key) as [m |];
    [destruct (Dict.get String.eqb m metric_name) as [[a v] |] |];
    reflexivity.
Qed.

Lemma entry_stored (w : MetricAggregator.t)
    (bs : list (Py.num * MetricAggregator.metrics))
    (m : MetricAggregator.metrics) (ts_key : Py.num) (metric_name : string)
    (e : list string * list Py.value) :
  Buckets.is_nan ts_key = false ->
  Buckets.entry
    (MetricAggregator.with_buckets
       (Dict.set Py.num_eqb bs ts_key (Dict.set String.eqb m metric_name e)) w)
    ts_key metric_name = e.
Proof.
  intros Hnan. unfold Buckets.entry.
  cbn [MetricAggregator.buckets MetricAggregator.with_buckets].
  rewrite (get_set_same Py.num_eqb _ _ _ (num_eqb_refl _ Hnan)).
  now rewrite (get_set_same String.eqb _ _ _ (String.eqb_refl _)).
Qed.

(** X10: when the first element of [values] is a bare number, so that line
    219 yields a key that is not NaN, [consume_metric] returns normally and
    a lookup of (key, metric name) afterwards finds the merged entry: the
    values are the old values followed by all incoming ones, the aggregator
    set holds exactly the old and the incoming names, and it has no
    duplicate if the old one had none. *)
Theorem consume_metric_merges :
  forall (w : MetricAggregator.t) (metric_name : string)
         (aggregates : list string) (q : Py.num) (rest : list Py.value)
         (ts_key : Py.num),
    Py.num_div q (MetricAggregator.bucket_size w) = Py.Ret ts_key ->
    Buckets.is_nan ts_key = false ->
    let result :=
      MetricAggregator.consume_metric metric_name aggregates
        (Py.VNum q :: rest) w in
    let old := Buckets.entry w ts_key metric_name in
    let new := Buckets.entry (snd result) ts_key metric_name in
    fst result = Py.Ret tt
    /\ snd new = (snd old ++ Py.VNum q :: rest)%list
    /\ (forall a, In a (fst new) <-> In a (fst old) \/ In a aggregates)
    /\ (NoDup (fst old) -> NoDup (fst new)).
Proof.
  intros w metric_name aggregates q rest ts_key Hdiv Hnan result old new.
  subst result old new.
  rewrite (consume_metric_result w metric_name aggregates q rest ts_key Hdiv).
  cbn [fst snd]. rewrite (entry_stored _ _ _ _ _ _ Hnan).
  cbn [fst snd]. repeat split.
  - apply set_update_in.
  - apply set_update_in.
  - apply set_update_nodup.
Qed.

Lemma consume_metric_merges_witness :
  let w := Scenario.holding 15 in
  let result := MetricAggregator.consume_metric "m" ["avg"; "sum"] Sample.bare w in
  let old := Buckets.entry w (Py.Float (Py.float_of_Z 2)) "m" in
  let new := Buckets.entry (snd result) (Py.Float (Py.float_of_Z 2)) "m" in
  fst result = Py.Ret tt
  /\ snd new = (snd old ++ Sample.bare)%list
  /\ (forall a, In a (fst new) <-> In a (fst old) \/ In a ["avg"; "sum"])
  /\ (NoDup (fst old) -> NoDup (fst new)).
Proof.
  apply (consume_metric_merges (Scenario.holding 15) "m" ["avg"; "sum"]
           (Py.Int 10) [Py.VNum (Py.Int 11)] (Py.Float (Py.float_of_Z 2)));
    vm_compute; reflexivity.
Defined.



(** ** Starting and stopping the aggregator *)

(** When the base class has no [_check_buckets], [startWorker] ends in an
    exception and assigns no task. *)
Lemma startWorker_no_task (worker_attrs : list string)
    (cfg_bucket cfg_bucket_size : Py.num) (w : MetricAggregator.t) :
  existsb (String.eqb "_check_buckets") worker_attrs = false ->
  MetricAggregator._task w = None ->
  (exists e,
      fst (MetricAggregator.startWorker worker_attrs cfg_bucket
             cfg_bucket_size w) = Py.Raise e)
  /\ MetricAggregator._task
       (snd (MetricAggregator.startWorker worker_attrs cfg_bucket
               cfg_bucket_size w)) = None.
Proof.
  intros Hattr Htask.
  assert (MetricAggregator.getattr worker_attrs "_check_buckets"
          = Py.Raise Py.AttributeError) as Hg.
  { unfold MetricAggregator.getattr. now rewrite Hattr. }
  unfold MetricAggregator.startWorker, bind, MetricAggregator.write_log,
    modify, lift, gets.
  rewrite Hg.
  destruct (Fmt.int_of cfg_bucket) as [bucket | e]; cbn; [| eauto].
  destruct (Py.to_float cfg_bucket_size) as [size | e]; cbn; [| eauto].
  destruct (Fmt.fmt_d (Py.Float size)) as [size_str | e]; cbn; eauto.
Qed.

(** X12: for every configuration, [startWorker] fails when the base class
    provides no [_check_buckets]: it ends in an exception and the worker,
    which had no task, still has none, so nothing will ever tick. *)
Theorem startWorker_never_schedules :
  forall (worker_attrs : list string) (cfg_bucket cfg_bucket_size : Py.num)
         (w : MetricAggregator.t),
    existsb (String.eqb "_check_buckets") worker_attrs = false ->
    MetricAggregator._task w = None ->
    let result :=
      MetricAggregator.startWorker worker_attrs cfg_bucket cfg_bucket_size w in
    (exists e, fst result = Py.Raise e)
    /\ MetricAggregator._task (snd result) = None.
Proof.
  intros worker_attrs cfg_bucket cfg_bucket_size w Hattr Htask result.
  exact (startWorker_no_task worker_attrs cfg_bucket cfg_bucket_size w
           Hattr Htask).
Qed.

Lemma startWorker_never_schedules_witness :
  let result :=
    MetricAggregator.startWorker ["config"; "start_publisher"; "start_consumer"]
      (Py.Int 3) (Py.Int 60) (MetricAggregator.fresh (Py.Int 0) 100) in
  (exists e, fst result = Py.Raise e)
  /\ MetricAggregator._task (snd result) = None.
Proof.
  apply (startWorker_never_schedules
           ["config"; "start_publisher"; "start_consumer"] (Py.Int 3)
           (Py.Int 60) (MetricAggregator.fresh (Py.Int 0) 100));
    reflexivity.
Defined.

(** X13: a worker whose [startWorker] failed that way cannot be stopped
    cleanly either: [stopWorker] finds no [_task], raises [AttributeError]
    and makes no final pass, so the worker is left exactly as the failed
    start left it. *)
Theorem stopWorker_after_failed_start :
  forall (from_name : string -> Py.value -> Py.outcome Py.value)
         (worker_attrs : list string) (cfg_bucket cfg_bucket_size : Py.num)
         (w : MetricAggregator.t),
    existsb (String.eqb "_check_buckets") worker_attrs = false ->
    MetricAggregator._task w = None ->
    let started :=
      snd (MetricAggregator.startWorker worker_attrs cfg_bucket
             cfg_bucket_size w) in
    MetricAggregator.stopWorker from_name started
    = (Py.Raise Py.AttributeError, started).
Proof.
  intros from_name worker_attrs cfg_bucket cfg_bucket_size w Hattr Htask started.
  destruct (startWorker_no_task worker_attrs cfg_bucket cfg_bucket_size w
              Hattr Htask) as [_ Hnone].
  fold started in Hnone.
  unfold MetricAggregator.stopWorker, bind, gets. now rewrite Hnone.
Qed.

Lemma stopWorker_after_failed_start_witness :
  let started :=
    snd (MetricAggregator.startWorker [] (Py.Int 3) (Py.Int 60)
           (MetricAggregator.fresh (Py.Int 0) 100)) in
  MetricAggregator.stopWorker (fun _ v => Py.Ret v) started
  = (Py.Raise Py.AttributeError, started).
Proof.
  apply (stopWorker_after_failed_start (fun _ v => Py.Ret v) [] (Py.Int 3)
           (Py.Int 60) (MetricAggregator.fresh (Py.Int 0) 100));
    reflexivity.
Defined.

(** ** GraphiteMetricsCollector.consume_metrics *)

Section Collector.

Variable timezone : Z.
Variable metric_name : string.

Lemma publish_pair (p : Z * spec_float) (out : GraphitePublisher.sent) :
  GraphitePublisher.publish_metric timezone metric_name (Py.Float (snd p))
    (Py.Int (fst p)) out
  = (Py.Ret tt,
     (out ++ [GraphiteMetricsCollector.line_of timezone metric_name p])%list).
Proof. reflexivity. Qed.

Lemma consume_pairs (pairs : list (Z * spec_float)) :
  forall out : GraphitePublisher.sent,
    GraphiteMetricsCollector.consume_metrics timezone metric_name
      (map GraphiteMetricsCollector.pair_of pairs) out
    = (Py.Ret tt,
       (out ++ map (GraphiteMetricsCollector.line_of timezone metric_name)
                 pairs)%list).
Proof.
  unfold GraphiteMetricsCollector.consume_metrics.
  induction pairs as [| p r IH]; intros out; cbn [map].
  - cbn. now rewrite app_nil_r.
  - rewrite for_each_cons.
    unfold bind at 1, lift at 1. cbn [GraphiteMetricsCollector.pair_of
      Py.unpack2 Py.iter Py.obind Py.unpack2_list].
    rewrite publish_pair, IH. now rewrite <- app_assoc.
Qed.

End Collector.

(** X14: for a list of (integer timestamp, float value) pairs,
    [consume_metrics] publishes one line per pair, in the order of the
    list, each on the routing key of the metric and reading
    ["<value:%f> <timestamp - time.timezone:%d>"]; it never fails. *)
Theorem consume_metrics_publishes_each_pair :
  forall (timezone : Z) (metric_name : string)
         (pairs : list (Z * spec_float)) (out : GraphitePublisher.sent),
    GraphiteMetricsCollector.consume_metrics timezone metric_name
      (map GraphiteMetricsCollector.pair_of pairs) out
    = (Py.Ret tt,
       (out ++ map (GraphiteMetricsCollector.line_of timezone metric_name)
                 pairs)%list).
Proof. intros. apply consume_pairs. Qed.

(** X15: [consume_metrics] stops at the first item that does not unpack
    into two, with the exception of the unpacking: the pairs before it have
    been published, nothing after it is. *)
Theorem consume_metrics_stops_at_bad_item :
  forall (timezone : Z) (metric_name : string)
         (pairs : list (Z * spec_float)) (bad : Py.value)
         (rest : list Py.value) (e : Py.exn) (out : GraphitePublisher.sent),
    Py.unpack2 bad = Py.Raise e ->
    GraphiteMetricsCollector.consume_metrics timezone metric_name
      (map GraphiteMetricsCollector.pair_of pairs ++ bad :: rest) out
    = (Py.Raise e,
       (out ++ map (GraphiteMetricsCollector.line_of timezone metric_name)
                 pairs)%list).
Proof.
  intros timezone metric_name pairs bad rest e out Hbad.
  unfold GraphiteMetricsCollector.consume_metrics.
  rewrite for_each_app.
  change (for_each (map GraphiteMetricsCollector.pair_of pairs) _ out)
    with (GraphiteMetricsCollector.consume_metrics timezone metric_name
            (map GraphiteMetricsCollector.pair_of pairs) out).
  rewrite consume_pairs, for_each_cons.
  unfold bind at 1, lift at 1. now rewrite Hbad.
Qed.

Lemma consume_metrics_stops_at_bad_item_witness :
  GraphiteMetricsCollector.consume_metrics
    (GraphitePublisher.timezone_of_utc_plus 2) "m.sum"
    (map GraphiteMetricsCollector.pair_of [(1700000000, Py.float_of_Z 42)]
       ++ Py.VNum (Py.Int 7) :: [Scenario.point 1700000005 1]) []
  = (Py.Raise Py.TypeError,
     ([] ++ map (GraphiteMetricsCollector.line_of
                   (GraphitePublisher.timezone_of_utc_plus 2) "m.sum")
               [(1700000000, Py.float_of_Z 42)])%list).
Proof.
  apply (consume_metrics_stops_at_bad_item
           (GraphitePublisher.timezone_of_utc_plus 2) "m.sum"
           [(1700000000, Py.float_of_Z 42)] (Py.VNum (Py.Int 7))
           [Scenario.point 1700000005 1] Py.TypeError []).
  reflexivity.
Defined.

(** ** A second pass *)

Lemma distinct_filter (P : Py.num * MetricAggregator.metrics -> bool)
    (bs : list (Py.num * MetricAggregator.metrics)) :
  Buckets.distinct (map fst bs) = true ->
  Buckets.distinct (map fst (filter P bs)) = true.
Proof.
  induction bs as [| [k m] r IH]; cbn [map fst filter Buckets.distinct];
    [reflexivity |].
  intros H. apply andb_prop in H as [Hk Hr].
  destruct (P (k, m)); [| auto].
  cbn [map fst Buckets.distinct]. rewrite (IH Hr), andb_true_r.
  rewrite forallb_forall in Hk |- *. intros k' Hin. apply Hk.
  apply in_map_iff in Hin as (item & <- & Hin).
  apply filter_In in Hin as [Hin _]. now apply in_map.
Qed.

Lemma open_only (prev_ts_key : Py.num)
    (bs : list (Py.num * MetricAggregator.metrics)) :
  let kept := filter (Buckets.open prev_ts_key) bs in
  filter (Buckets.open prev_ts_key) kept = kept
  /\ forallb (fun item => negb (Buckets.blocking prev_ts_key item)) kept
     = true.
Proof.
  induction bs as [| item r (IH1 & IH2)]; cbn [filter]; [split; reflexivity |].
  destruct (Buckets.open prev_ts_key item) eqn:E; [| split; assumption].
  cbn [filter forallb]. rewrite E.
  unfold Buckets.open, Buckets.blocking, Buckets.stale, Buckets.due in *.
  apply andb_prop in E as [Hlt Heq].
  apply negb_true_iff in Hlt, Heq. rewrite Hlt, Heq. cbn.
  split; [now f_equal | assumption].
Qed.

(** X16: after a pass that returned normally over such a bucket map
    (distinct keys, no bucket below [prev_ts_key], no metric in a bucket
    equal to it), a second pass at the same clock reading finds nothing to
    do: it returns normally and leaves the worker exactly as the first pass
    left it. *)
Theorem check_buckets_second_pass :
  forall (from_name : string -> Py.value -> Py.outcome Py.value)
         (w : MetricAggregator.t) (prev_ts_key prev_ts : Py.num),
    Buckets.previous w = Py.Ret (prev_ts_key, prev_ts) ->
    Buckets.distinct (map fst (MetricAggregator.buckets w)) = true ->
    forallb (fun item => negb (Buckets.blocking prev_ts_key item))
      (MetricAggregator.buckets w) = true ->
    let first := snd (MetricAggregator.check_buckets from_name w) in
    MetricAggregator.check_buckets from_name first = (Py.Ret tt, first).
Proof.
  intros from_name w prev_ts_key prev_ts Hp Hd Hok first. subst first.
  rewrite (pass_unblocked from_name prev_ts_key prev_ts w Hp Hd Hok).
  cbn [snd].
  set (kept := filter (Buckets.open prev_ts_key) (MetricAggregator.buckets w)).
  set (first := MetricAggregator.with_buckets kept w).
  destruct (open_only prev_ts_key (MetricAggregator.buckets w))
    as (Hkeep & Hnone). fold kept in Hkeep, Hnone.
  assert (Buckets.previous first = Py.Ret (prev_ts_key, prev_ts)) as Hp'
      by exact Hp.
  rewrite (pass_unblocked from_name prev_ts_key prev_ts first Hp').
  - change (MetricAggregator.buckets first) with kept. rewrite Hkeep.
    subst first. destruct w. reflexivity.
  - apply distinct_filter. exact Hd.
  - exact Hnone.
Qed.

Lemma check_buckets_second_pass_witness :
  let first := snd (MetricAggregator.check_buckets (fun _ v => Py.Ret v)
                      Sample.tidy) in
  MetricAggregator.check_buckets (fun _ v => Py.Ret v) first
  = (Py.Ret tt, first).
Proof.
  apply (check_buckets_second_pass (fun _ v => Py.Ret v) Sample.tidy
           (Py.Float (Py.float_of_Z 5)) (Py.Float (Py.float_of_Z 25)));
    vm_compute; reflexivity.
Defined.
